(** * EPREM plotting utilities: input normalisation and path resolution

    A shallow embedding of the helper functions of [flux-energy.py],
    [stream-survey.py] and [support/observers.py]: the keyword bag [user]
    is a finite map from option names to Python values, exceptions are an
    error monad, and the libraries the programs delegate to (the numeric
    literal grammar and binary floats of the interpreter, [eprempy.quantity],
    [pathlib]/[eprempy.paths], the plotting backend) are interfaces. *)

From Stdlib Require Import ZArith String Ascii List Bool Lia DecimalString.
From stdpp Require Import base option list strings gmap.

Local Open Scope string_scope.
Local Open Scope Z_scope.

(** ** Exceptions and the error monad *)

Inductive exn : Type :=
| ValueError
| TypeError
| IndexError
| OverflowError
| LibraryError (tag : string).

Inductive result (A : Type) : Type :=
| Ok (a : A)
| Raise (e : exn).
Arguments Ok {A} a.
Arguments Raise {A} e.

#[global] Instance result_ret : MRet result := fun A a => Ok a.
#[global] Instance result_bind : MBind result := fun A B f r =>
  match r with
  | Ok a => f a
  | Raise e => Raise e
  end.

Definition is_ok {A} (r : result A) : bool :=
  match r with Ok _ => true | Raise _ => false end.

(** [try: ... except ValueError: ...] around a computation whose value is
    discarded: the handler runs on [ValueError] only, every other exception
    propagates, and a normal exit continues with [k]. *)
Definition try_except_ValueError {A B} (body : result A)
    (handler : result B) (k : result B) : result B :=
  match body with
  | Ok _ => k
  | Raise ValueError => handler
  | Raise e => Raise e
  end.

Fixpoint mapR {A B} (f : A -> result B) (l : list A) : result (list B) :=
  match l with
  | [] => Ok []
  | x :: xs => y ← f x; ys ← mapR f xs; Ok (y :: ys)
  end.

(** ** The interpreter's numbers

    What the programs use of [int], [float] and [str] on numbers. Parsing of
    numeric literals and binary floating point stay abstract: [None] from a
    parser is the builtin's [ValueError]. *)

Class Numbers : Type := {
  Float : Type;
  int_of_str : string -> option Z;        (* int(s) *)
  float_of_str : string -> option Float;  (* float(s) *)
  float_of_int : Z -> result Float;       (* float(n); OverflowError when too large *)
  int_of_float : Float -> result Z;       (* int(x); fails on inf and nan *)
  float_nonzero : Float -> bool;          (* bool(x) *)
  float_str : Float -> string;            (* str(x) *)
}.

Section Values.
Context `{Numbers}.

#[local] Set Warnings "-register-all".

(** Plain Python data as the command line (or a direct caller) can put it in
    the keyword bag. A [string] is read as its sequence of characters. *)
Inductive pyval : Type :=
| VNone
| VBool (b : bool)
| VInt (n : Z)
| VFloat (x : Float)
| VStr (s : string)
| VList (l : list pyval)
| VTuple (l : list pyval).

Definition chars (s : string) : list pyval :=
  map (fun c => VStr (String c EmptyString)) (list_ascii_of_string s).

(** [len(v)] *)
Definition py_len (v : pyval) : result Z :=
  match v with
  | VStr s => Ok (Z.of_nat (String.length s))
  | VList l | VTuple l => Ok (Z.of_nat (length l))
  | _ => Raise TypeError
  end.

(** The items of a sequence, as iteration and indexing see them. *)
Definition py_items (v : pyval) : result (list pyval) :=
  match v with
  | VStr s => Ok (chars s)
  | VList l | VTuple l => Ok l
  | _ => Raise TypeError
  end.

(** [l[i]] on the items of a sequence: negative indices count from the end,
    an index out of range raises [IndexError]. *)
Definition index_items {A} (l : list A) (i : Z) : result A :=
  let n := Z.of_nat (length l) in
  let j := if i <? 0 then i + n else i in
  if (j <? 0) || (n <=? j) then Raise IndexError
  else match nth_error l (Z.to_nat j) with
       | Some x => Ok x
       | None => Raise IndexError
       end.

(** [v[i]] *)
Definition py_getitem (v : pyval) (i : Z) : result pyval :=
  l ← py_items v; index_items l i.

(** The items of [v[:-1]]. *)
Definition py_init_items (v : pyval) : result (list pyval) :=
  l ← py_items v; Ok (removelast l).

(** [int(v)] *)
Definition py_int (v : pyval) : result Z :=
  match v with
  | VInt n => Ok n
  | VBool b => Ok (Z.b2z b)
  | VFloat x => int_of_float x
  | VStr s => match int_of_str s with Some n => Ok n | None => Raise ValueError end
  | _ => Raise TypeError
  end.

(** [float(v)] *)
Definition py_float (v : pyval) : result Float :=
  match v with
  | VFloat x => Ok x
  | VInt n => float_of_int n
  | VBool b => float_of_int (Z.b2z b)
  | VStr s => match float_of_str s with Some x => Ok x | None => Raise ValueError end
  | _ => Raise TypeError
  end.

(** Truth value of [v]. *)
Definition py_truthy (v : pyval) : bool :=
  match v with
  | VNone => false
  | VBool b => b
  | VInt n => negb (n =? 0)
  | VFloat x => float_nonzero x
  | VStr s => negb (String.eqb s "")
  | VList l | VTuple l => negb (Nat.eqb (length l) 0)
  end.

(** [isinstance(v, int)]: [bool] is a subclass of [int]. *)
Definition is_int (v : pyval) : bool :=
  match v with VInt _ | VBool _ => true | _ => false end.

Definition str_of_Z (n : Z) : string := NilZero.string_of_int (Z.to_int n).

Definition join_with (sep : string) (l : list string) : string :=
  match l with
  | [] => ""
  | x :: xs => fold_left (fun acc y => acc ++ sep ++ y) xs x
  end.

(** [repr(v)]; a string is quoted as is, which is [repr] for text without
    quotes, backslashes or control characters. *)
Fixpoint py_repr (v : pyval) : string :=
  match v with
  | VNone => "None"
  | VBool true => "True"
  | VBool false => "False"
  | VInt n => str_of_Z n
  | VFloat x => float_str x
  | VStr s => "'" ++ s ++ "'"
  | VList l => "[" ++ join_with ", " (map py_repr l) ++ "]"
  | VTuple [x] => "(" ++ py_repr x ++ ",)"
  | VTuple l => "(" ++ join_with ", " (map py_repr l) ++ ")"
  end.

(** [str(v)], what an f-string writes for [{v}]. *)
Definition py_str (v : pyval) : string :=
  match v with
  | VStr s => s
  | _ => py_repr v
  end.

(** [user.get(key)]: a missing key reads as [None]. *)
Definition dict_get (user : gmap string pyval) (key : string) : pyval :=
  default VNone (user !! key).

End Values.

(** ** The measurement library ([eprempy.quantity])

    The constructor and the three operations the programs apply to its
    results. Each may reject its arguments. *)

Class Quantity `{Numbers} : Type := {
  Measurement : Type;
  measure : list pyval -> result Measurement;              (* quantity.measure( *args ) *)
  withunit : Measurement -> string -> result Measurement;  (* m.withunit(unit) *)
  meas_float : Measurement -> result Float;                (* float(m) *)
  meas_unit : Measurement -> string;                       (* str(m.unit) *)
}.

(** What a normaliser returns: plain data or a measurement. *)
Inductive obj `{Quantity} : Type :=
| Plain (v : pyval)
| Meas (m : Measurement).

(** ** Paths and the file system ([pathlib], [eprempy.paths.fullpath]) *)

Class PathLib : Type := {
  Path : Type;
  cwd : Path;                                   (* pathlib.Path.cwd() *)
  fullpath : string -> Path;                    (* fullpath(s) *)
  fullpath_path : Path -> Path;                 (* fullpath(p) *)
  glob : Path -> string -> result (list Path);  (* the items of p.glob(pattern) *)
  is_dir : Path -> bool;                        (* p.is_dir() *)
  join_str : Path -> string -> Path;            (* p / s *)
  join_path : Path -> Path -> Path;             (* p / q *)
  path_str : Path -> string;                    (* str(p) *)
}.

(** ** The plotting backend and the data source, as [main] drives them *)

Class Backend `{Numbers} `{PathLib} : Type := {
  (* plt.subplots(nrows=1, ncols=npaths, ...) *)
  subplots : Z -> result unit;
  (* plot_multiple(fig, flataxs, num, config, paths, timestr, **user) *)
  plot_multiple : Z -> option string -> list Path -> string ->
                  gmap string pyval -> result unit;
  (* plot_single(flataxs[0], num, config, path, timestr, **user) *)
  plot_single : Z -> option string -> Path -> string ->
                gmap string pyval -> result unit;
  (* fig.tight_layout() *)
  tight_layout : result unit;
  (* plotdir.mkdir(exist_ok=True, parents=True) *)
  mkdir : Path -> result unit;
  (* plt.savefig(plotpath) *)
  savefig : Path -> result unit;
}.

(** ** flux-energy.py *)

Module FluxEnergy.
Section Normalizers.
Context `{Quantity}.

(** [get_time], lines 175-184. *)
Definition get_time (user : gmap string pyval) : result pyval :=
  let time := dict_get user "time" in
  match time with
  | VNone => Ok (VInt 0)
  | _ =>
    n ← py_len time;
    if n =? 1 then
      x ← py_getitem time 0; i ← py_int x; Ok (VInt i)
    else
      n' ← py_len time;
      if n' =? 2 then
        x ← py_getitem time 0; f ← py_float x;
        u ← py_getitem time 1; Ok (VTuple [VFloat f; u])
      else Raise ValueError
  end.

(** [get_shell], lines 187-192. *)
Definition get_shell (user : gmap string pyval) : result pyval :=
  let shell := dict_get user "shell" in
  match shell with
  | VNone => Ok (VTuple [])
  | _ => items ← py_items shell; Ok (VTuple items)
  end.

(** [get_radius], lines 195-208. *)
Definition get_radius (user : gmap string pyval) : result obj :=
  let radius := dict_get user "radius" in
  match radius with
  | VNone => Ok (Plain (VTuple []))
  | _ =>
    n ← py_len radius;
    if n =? 1 then
      x ← py_getitem radius 0; m ← measure [x; VStr "au"]; Ok (Meas m)
    else
      try_except_ValueError
        (last ← py_getitem radius (-1); py_float last)
        (unit ← py_getitem radius (-1);
         items ← py_init_items radius;
         values ← mapR py_float items;
         m ← measure (map VFloat values ++ [unit]); Ok (Meas m))
        (m ← measure [radius; VStr "au"]; Ok (Meas m))
  end.

End Normalizers.

Section Paths.
Context `{PathLib}.

(** The [runs] argument: one string, or a list of strings. *)
Inductive runs_arg : Type :=
| RunStr (s : string)
| RunList (l : list string).

(** What [build_paths] returns: a tuple, or on line 73 a generator whose
    items are not yet computed. *)
Inductive paths_value : Type :=
| PathTuple (ps : list Path)
| PathGenerator (items : result (list Path)).

Definition string_chars (s : string) : list string :=
  map (fun c => String c EmptyString) (list_ascii_of_string s).

(** The items of [runs], as [len], indexing and iteration see them. *)
Definition runs_items (runs : runs_arg) : list string :=
  match runs with
  | RunStr s => string_chars s
  | RunList l => l
  end.

(** [build_paths], lines 54-83. *)
Definition build_paths (indir : option string) (runs : option runs_arg)
    : result paths_value :=
  match indir, runs with
  | None, None => Ok (PathTuple [cwd])
  | None, Some (RunStr s) =>
      Ok (PathGenerator (ps ← glob cwd s; Ok (map fullpath_path ps)))
  | None, Some (RunList l) => Ok (PathTuple (map fullpath l))
  | Some d, None =>
      let path := fullpath d in
      contents ← glob path "*";
      if is_dir path && forallb is_dir contents
      then Ok (PathTuple contents)
      else Ok (PathTuple [path])
  | Some d, Some r =>
      let path := fullpath d in
      if Nat.eqb (length (runs_items r)) 1 then
        pattern ← index_items (runs_items r) 0;
        ps ← glob path pattern;
        Ok (PathTuple (map (join_path path) ps))
      else Ok (PathTuple (map (join_str path) (runs_items r)))
  end.

End Paths.

Section Main.
Context `{Numbers} `{PathLib} `{!Backend}.

(** The effects of [main] on the file system and the terminal. *)
Inductive event : Type :=
| Mkdir (p : Path)
| Print (s : string)
| Savefig (p : Path)
| Close.

(** A run of [main]: the events so far and how it ended. *)
Definition run : Type := (list event * result unit)%type.

Definition emit (e : event) (r : result unit) (k : run) : run :=
  match r with
  | Ok _ => let (log, out) := k in (e :: log, out)
  | Raise x => ([], Raise x)
  end.

Definition step {A} (r : result A) (k : A -> run) : run :=
  match r with
  | Ok a => k a
  | Raise x => ([], Raise x)
  end.

(** [len(paths)]: a generator has no length. *)
Definition len_paths (p : paths_value) : result (list Path) :=
  match p with
  | PathTuple ps => Ok ps
  | PathGenerator _ => Raise TypeError
  end.

(** [outdir or '.'] *)
Definition or_dot (outdir : option string) : string :=
  match outdir with
  | Some s => if String.eqb s "" then "." else s
  | None => "."
  end.

(** [main], lines 14-51. *)
Definition main (num : Z) (config indir : option string)
    (runs : option runs_arg) (outdir : option string) (verbose : bool)
    (user : gmap string pyval) : run :=
  step (build_paths indir runs) (fun paths =>
  step (len_paths paths) (fun ps =>
  let npaths := Z.of_nat (length ps) in
  step (subplots npaths) (fun _ =>
  step (get_time user) (fun time =>
  step (if is_int time
        then Ok ("time index = " ++ py_str time)
        else t0 ← py_getitem time 0; t1 ← py_getitem time 1;
             Ok ("time = " ++ py_str t0 ++ " " ++ py_str t1)) (fun timestr =>
  step (if 1 <? npaths
        then plot_multiple num config ps timestr user
        else p0 ← index_items ps 0; plot_single num config p0 timestr user)
       (fun _ =>
  step tight_layout (fun _ =>
  let plotdir := fullpath (or_dot outdir) in
  emit (Mkdir plotdir) (mkdir plotdir) (
  step (py_getitem time 0) (fun t0 =>
  let plotpath :=
    join_str plotdir ("stream" ++ str_of_Z num ++ "_flux-t" ++ py_str t0 ++ "h.png") in
  let save := emit (Savefig plotpath) (savefig plotpath) ([Close], Ok ()) in
  if verbose
  then emit (Print ("Saved " ++ path_str plotpath)) (Ok ()) save
  else save))))))))).

End Main.
End FluxEnergy.

(** ** support/observers.py *)

Module Observers.
Section Normalizers.
Context `{Quantity}.

(** [get_location], lines 4-11. *)
Definition get_location (user : gmap string pyval) : result obj :=
  let shell := dict_get user "shell" in
  match shell with
  | VNone =>
    let radius := dict_get user "radius" in
    if py_truthy radius then
      r0 ← py_getitem radius 0; x ← py_float r0;
      r1 ← py_getitem radius 1;
      m ← measure [VFloat x; r1];
      m' ← withunit m "au"; Ok (Meas m')
    else Ok (Plain (VInt 0))
  | _ => Ok (Plain shell)
  end.

(** [get_species], lines 14-19. *)
Definition get_species (user : gmap string pyval) : result obj :=
  let species := dict_get user "species" in
  match species with
  | VNone => Ok (Plain (VInt 0))
  | _ => Ok (Plain species)
  end.

End Normalizers.
End Observers.

(** ** stream-survey.py *)

Module StreamSurvey.

(** What [make_suptitle] reads of a stream observer: the text of each entry
    of [stream.species.data]. *)
Record Stream : Type := { species_data : list string }.

Section Survey.
Context `{Quantity}.

(** [get_location], lines 75-82. *)
Definition get_location (user : gmap string pyval) : result obj :=
  let shell := dict_get user "shell" in
  match shell with
  | VNone =>
    let radius := dict_get user "radius" in
    if py_truthy radius then
      r0 ← py_getitem radius 0; x ← py_float r0;
      r1 ← py_getitem radius 1;
      m ← measure [VFloat x; r1];
      m' ← withunit m "au"; Ok (Meas m')
    else Ok (Plain (VInt 0))
  | _ => Ok (Plain shell)
  end.

(** [get_species], lines 85-90. *)
Definition get_species (user : gmap string pyval) : result obj :=
  let species := dict_get user "species" in
  match species with
  | VNone => Ok (Plain (VInt 0))
  | _ => Ok (Plain species)
  end.

(** [make_suptitle], lines 93-111. *)
Definition make_suptitle (stream : Stream) (location species : obj)
    : result string :=
  strloc ← match location with
           | Meas m =>
               x ← meas_float m;
               Ok ("radius = " ++ float_str x ++ " " ++ meas_unit m)
           | Plain v =>
               if is_int v then Ok ("shell = " ++ py_str v)
               else Raise TypeError
           end;
  strspe ← match species with
           | Plain v =>
               if is_int v then
                 i ← py_int v;
                 name ← index_items (species_data stream) i;
                 Ok ("species = " ++ name)
               else match v with
                    | VStr s => Ok ("species = " ++ s)
                    | _ => Raise TypeError
                    end
           | Meas _ => Raise TypeError
           end;
  Ok (strloc ++ " | " ++ strspe).

(** The title [plot_stream] sets: lines 63, 64 and 72. *)
Definition plot_stream_suptitle (stream : Stream)
    (user : gmap string pyval) : result string :=
  location ← get_location user;
  species ← get_species user;
  make_suptitle stream location species.

End Survey.
End StreamSurvey.

(** ** Text search, for statements about titles *)

Fixpoint contains (sub s : string) : bool :=
  String.prefix sub s ||
  match s with
  | EmptyString => false
  | String _ s' => contains sub s'
  end.

(** ** Reference instances

    Executable instances of the interfaces, on which the statements below are
    evaluated: exact finite decimals for floats, measurements of numbers
    under a unit, and a file system given by its list of entries. *)

Module Reference.

(** *** Numbers: plain decimal literals *)

Record decimal : Type := { mantissa : Z; places : nat }.

Definition digit_of (c : ascii) : option Z :=
  let n := Z.of_N (N_of_ascii c) in
  if (48 <=? n) && (n <=? 57) then Some (n - 48) else None.

Fixpoint digits_value (acc : Z) (l : list ascii) : option Z :=
  match l with
  | [] => Some acc
  | c :: r => d ← digit_of c; digits_value (10 * acc + d) r
  end.

Definition parse_digits (l : list ascii) : option Z :=
  match l with
  | [] => None
  | _ => digits_value 0 l
  end.

Definition split_sign (l : list ascii) : bool * list ascii :=
  match l with
  | c :: r =>
      if Ascii.eqb c "-" then (true, r)
      else if Ascii.eqb c "+" then (false, r)
      else (false, l)
  | [] => (false, l)
  end.

Fixpoint split_dot (l : list ascii) : list ascii * option (list ascii) :=
  match l with
  | [] => ([], None)
  | c :: r =>
      if Ascii.eqb c "." then ([], Some r)
      else let (a, b) := split_dot r in (c :: a, b)
  end.

Definition signed (neg : bool) (n : Z) : Z := if neg then - n else n.

Definition parse_int (s : string) : option Z :=
  let (neg, r) := split_sign (list_ascii_of_string s) in
  n ← parse_digits r; Some (signed neg n).

Definition parse_decimal (s : string) : option decimal :=
  let (neg, r) := split_sign (list_ascii_of_string s) in
  let (ip, fp) := split_dot r in
  i ← parse_digits ip;
  match fp with
  | None => Some {| mantissa := signed neg i; places := 0 |}
  | Some f =>
      fr ← parse_digits f;
      Some {| mantissa := signed neg (i * 10 ^ Z.of_nat (length f) + fr);
              places := length f |}
  end.

Fixpoint zeros (n : nat) : string :=
  match n with
  | O => ""
  | S k => "0" ++ zeros k
  end.

Definition decimal_str (d : decimal) : string :=
  let p := 10 ^ Z.of_nat (places d) in
  let a := Z.abs (mantissa d) in
  let frac := str_of_Z (a mod p) in
  (if mantissa d <? 0 then "-" else "") ++ str_of_Z (a / p) ++ "." ++
  (if Nat.eqb (places d) 0 then "0"
   else zeros (places d - String.length frac) ++ frac).

#[export] Instance decimal_numbers : Numbers := {|
  Float := decimal;
  int_of_str := parse_int;
  float_of_str := parse_decimal;
  float_of_int n := Ok {| mantissa := n; places := 0 |};
  int_of_float d := Ok (Z.quot (mantissa d) (10 ^ Z.of_nat (places d)));
  float_nonzero d := negb (mantissa d =? 0);
  float_str := decimal_str;
|}.

(** *** Measurements: numbers under a unit

    The constructor takes numbers, or one list or tuple of numbers, followed
    by the unit. Text among the magnitudes is rejected with [TypeError], as
    [eprempy.quantity.measure] rejects it. *)

Record tagged : Type := { magnitudes : list pyval; unit_of : string }.

Definition is_number (v : pyval) : bool :=
  match v with
  | VBool _ | VInt _ | VFloat _ => true
  | _ => false
  end.

(** One list or tuple stands for its items. *)
Definition measured_values (vs : list pyval) : list pyval :=
  match vs with
  | [VList l] | [VTuple l] => l
  | _ => vs
  end.

Definition tagged_measure (args : list pyval) : result tagged :=
  match List.last args VNone with
  | VStr u =>
      match measured_values (removelast args) with
      | [] => Raise (LibraryError "measure")
      | values =>
          if forallb is_number values
          then Ok {| magnitudes := values; unit_of := u |}
          else Raise TypeError
      end
  | _ => Raise (LibraryError "measure")
  end.

Definition tagged_withunit (m : tagged) (u : string) : result tagged :=
  if String.eqb (unit_of m) u then Ok m
  else Raise (LibraryError "withunit").

Definition tagged_float (m : tagged) : result decimal :=
  match magnitudes m with
  | [v] => py_float v
  | _ => Raise TypeError
  end.

#[export] Instance tagged_quantity : Quantity := {|
  Measurement := tagged;
  measure := tagged_measure;
  withunit := tagged_withunit;
  meas_float := tagged_float;
  meas_unit := unit_of;
|}.

(** *** Paths: component lists from the root, over a listed file system *)

Fixpoint components (acc : list ascii) (l : list ascii) : list string :=
  match l with
  | [] => [string_of_list_ascii (rev acc)]
  | c :: r =>
      if Ascii.eqb c "/"
      then string_of_list_ascii (rev acc) :: components [] r
      else components (c :: acc) r
  end.

Definition push_component (p : list string) (c : string) : list string :=
  if String.eqb c "" || String.eqb c "." then p
  else if String.eqb c ".." then removelast p
  else p ++ [c].

Definition is_absolute (s : string) : bool := String.prefix "/" s.

Definition resolve (base : list string) (s : string) : list string :=
  fold_left push_component (components [] (list_ascii_of_string s))
            (if is_absolute s then [] else base).

(** Shell-style matching of one name: [*] is any run of characters, [?] any
    one character. *)
Fixpoint wild (p s : list ascii) : bool :=
  match p with
  | [] => match s with [] => true | _ => false end
  | c :: p' =>
      if Ascii.eqb c "*" then
        (fix skip (t : list ascii) : bool :=
           wild p' t || match t with [] => false | _ :: t' => skip t' end) s
      else match s with
           | [] => false
           | d :: s' => (Ascii.eqb c "?" || Ascii.eqb c d) && wild p' s'
           end
  end.

Definition path_eqb (p q : list string) : bool :=
  bool_decide (p = q).

Definition child_matches (dir : list string) (pattern : string)
    (e : list string * bool) : bool :=
  match e.1 with
  | [] => false
  | _ =>
      path_eqb (removelast e.1) dir &&
      wild (list_ascii_of_string pattern)
           (list_ascii_of_string (List.last e.1 ""))
  end.

Definition listed_glob (entries : list (list string * bool))
    (dir : list string) (pattern : string) : result (list (list string)) :=
  if String.eqb pattern "" then Raise ValueError
  else Ok (map fst (List.filter (child_matches dir pattern) entries)).

Definition listed_is_dir (entries : list (list string * bool))
    (p : list string) : bool :=
  path_eqb p [] ||
  existsb (fun e => path_eqb e.1 p && e.2) entries.

Definition listed_fs (entries : list (list string * bool))
    (here : list string) : PathLib := {|
  Path := list string;
  cwd := here;
  fullpath := resolve here;
  fullpath_path p := p;
  glob := listed_glob entries;
  is_dir := listed_is_dir entries;
  join_str := resolve;
  join_path _ q := q;
  path_str p := "/" ++ join_with "/" p;
|}.

(** A data directory with two runs, and one with a run and a log file. *)
Definition sample_entries : list (list string * bool) :=
  [ (["data"], true);
    (["data"; "run1"], true);
    (["data"; "run2"], true);
    (["mixed"], true);
    (["mixed"; "run1"], true);
    (["mixed"; "notes.txt"], false) ].

Definition sample_fs : PathLib := listed_fs sample_entries ["data"].

(** *** Backend: every call succeeds, given at least one column *)

Definition quiet_backend `{Numbers} (P : PathLib) : Backend := {|
  subplots n := if n <=? 0 then Raise ValueError else Ok ();
  plot_multiple _ _ _ _ _ := Ok ();
  plot_single _ _ _ _ _ := Ok ();
  tight_layout := Ok ();
  mkdir _ := Ok ();
  savefig _ := Ok ();
|}.

(** *** A stream observer with protons only *)

Definition proton_stream : StreamSurvey.Stream :=
  {| StreamSurvey.species_data := ["H+"] |}.

End Reference.

(** ** Vocabulary of the statements *)

Section Vocabulary.
Context `{Quantity}.

(** An option the caller did not supply: the key is missing from the bag, or
    mapped to [None] as the command-line parser does. *)
Definition unset (user : gmap string pyval) (key : string) : Prop :=
  user !! key = None \/ user !! key = Some VNone.

(** "The sequence of values coerced to integers, order preserved": the shell
    normaliser as the specification words it. *)
Definition normalizeShell_spec (user : gmap string pyval) : result pyval :=
  match dict_get user "shell" with
  | VNone => Ok (VTuple [])
  | shell =>
      items ← py_items shell;
      ints ← mapR py_int items;
      Ok (VTuple (map VInt ints))
  end.

(** Text, as the command line supplies every radius item. *)
Definition is_text (v : pyval) : bool :=
  match v with
  | VStr _ => true
  | _ => false
  end.

(** A measurement library that takes numbers only: a list holding text is
    rejected with [TypeError], whatever the unit. *)
Definition rejects_text : Prop :=
  forall items unit, existsb is_text items = true ->
    measure [VList items; VStr unit] = Raise TypeError.

(** The kinds [make_suptitle] accepts. *)
Definition location_kind_ok (location : obj) : bool :=
  match location with
  | Meas _ => true
  | Plain v => is_int v
  end.

Definition species_kind_ok (species : obj) : bool :=
  match species with
  | Plain (VStr _) => true
  | Plain v => is_int v
  | Meas _ => false
  end.

(** What [make_suptitle] reads from outside: [float] of a measurement, and
    the entry of [stream.species.data] at an integer species. *)
Definition location_readable (location : obj) : bool :=
  match location with
  | Meas m => is_ok (meas_float m)
  | Plain _ => true
  end.

Definition species_readable (stream : StreamSurvey.Stream) (species : obj) : bool :=
  match species with
  | Plain v =>
      if is_int v
      then is_ok (i ← py_int v; index_items (StreamSurvey.species_data stream) i)
      else true
  | Meas _ => true
  end.

End Vocabulary.

Section RunVocabulary.
Context `{PathLib}.

(** The images a run of [main] saved, in order. *)
Definition saved (r : FluxEnergy.run) : list Path :=
  omap (fun e => match e with FluxEnergy.Savefig p => Some p | _ => None end) r.1.

(** "One resolved path per input name, in the same order": each name made
    absolute on its own, or joined to the base directory. *)
Definition one_path_per_name (indir : option string) (names : list string)
    : list Path :=
  match indir with
  | None => map fullpath names
  | Some d => map (join_str (fullpath d)) names
  end.

End RunVocabulary.

(** ** stream-survey.py: units, stream selection and the entry point *)

(** The data source, the panel plots of [support.plots] and the plotting
    backend, as the survey tool drives them. *)
Class SurveyBackend `{Quantity} `{PathLib} : Type := {
  Dataset : Type;
  Observer : Type;
  (* eprem.dataset(source=source, config=config) *)
  open_dataset : string -> option string -> result Dataset;
  (* dataset.streams[num] *)
  streams_getitem : Dataset -> Z -> result Observer;
  (* list(dataset.streams.values()) *)
  streams_values : Dataset -> result (list Observer);
  (* what make_suptitle reads of an observer *)
  observer_stream : Observer -> StreamSurvey.Stream;
  (* stream.source.with_suffix('.png').name *)
  png_name : Observer -> result string;
  (* plt.subplots(nrows=1, ncols=3, ...) *)
  survey_subplots : result unit;
  (* plots.flux(axs[0], stream, location, species, units, ylim) *)
  plots_flux : Observer -> obj -> obj -> list (string * pyval) -> pyval ->
               result unit;
  (* plots.fluence(axs[1], stream, location, species, units, ylim) *)
  plots_fluence : Observer -> obj -> obj -> list (string * pyval) -> pyval ->
                  result unit;
  (* plots.intflux(axs[2], stream, location, species, units, ylim) *)
  plots_intflux : Observer -> obj -> obj -> list (string * pyval) -> pyval ->
                  result unit;
  (* plotdir.mkdir(parents=True, exist_ok=True) *)
  survey_mkdir : Path -> result unit;
  (* plt.savefig(plotpath) *)
  survey_savefig : Path -> result unit;
  (* plt.show() *)
  survey_show : result unit;
}.

Module SurveyProgram.

(** [UNITS], lines 12-18. *)
Definition UNITS : list (string * string) :=
  [ ("time", "hour");
    ("energy", "MeV");
    ("flux", "1 / (cm^2 s sr MeV/nuc)");
    ("fluence", "1 / (cm^2 sr MeV/nuc)");
    ("integral flux", "1 / (cm^2 s sr)") ].

Section Program.
Context `{Quantity} `{PathLib} `{!SurveyBackend}.

(** [user.get(key, fallback)]: the fallback is for a missing key only. *)
Definition dict_get_or (user : gmap string pyval) (key : string)
    (fallback : pyval) : pyval :=
  default fallback (user !! key).

(** The [units] dictionary of [plot_stream], line 65, in the order of
    [UNITS]. *)
Definition units (user : gmap string pyval) : list (string * pyval) :=
  map (fun qu => (qu.1, dict_get_or user qu.1 (VStr qu.2))) UNITS.

(** [get_streams], lines 46-51. *)
Definition get_streams (dataset : Dataset) (num : option Z)
    : result (list Observer) :=
  match num with
  | Some n => stream ← streams_getitem dataset n; Ok [stream]
  | None => streams_values dataset
  end.

(** [plot_stream], lines 54-72; the value is the title it sets. *)
Definition plot_stream (stream : Observer) (user : gmap string pyval)
    : result string :=
  _ ← survey_subplots;
  location ← StreamSurvey.get_location user;
  species ← StreamSurvey.get_species user;
  let units := units user in
  _ ← plots_flux stream location species units (dict_get user "flux_ylim");
  _ ← plots_fluence stream location species units (dict_get user "fluence_ylim");
  _ ← plots_intflux stream location species units (dict_get user "intflux_ylim");
  StreamSurvey.make_suptitle (observer_stream stream) location species.

(** The effects of the survey's [main]. *)
Inductive event : Type :=
| Mkdir (p : Path)
| Suptitle (title : string)
| Print (s : string)
| Savefig (p : Path)
| Show
| Close.

Definition run : Type := (list event * result unit)%type.

(** [r] then [k]: [k] runs only if [r] ended normally. *)
Definition andthen (r k : run) : run :=
  match r.2 with
  | Ok _ => (r.1 ++ k.1, k.2)%list
  | Raise _ => r
  end.

(** One library call with its effect, which happens if the call returns. *)
Definition act (e : event) (r : result unit) : run :=
  match r with
  | Ok _ => ([e], Ok ())
  | Raise x => ([], Raise x)
  end.

Definition skip : run := ([], Ok ()).

Definition raised (x : exn) : run := ([], Raise x).

(** [a or b] on strings and [None]. *)
Definition str_or (a : option string) (b : string) : string :=
  match a with
  | Some s => if String.eqb s "" then b else s
  | None => b
  end.

(** The call [plot_stream(stream, **user)], line 36: a bag that holds the
    key ['stream'] gives the parameter a second value, which is a
    [TypeError] before the function is entered. *)
Definition call_plot_stream (stream : Observer) (user : gmap string pyval)
    : result string :=
  if bool_decide (is_Some (user !! "stream")) then Raise TypeError
  else plot_stream stream user.

(** The body of the loop of [main], lines 36-43. *)
Definition plot_and_save (plotdir : Path) (verbose : bool)
    (user : gmap string pyval) (stream : Observer) : run :=
  match call_plot_stream stream user with
  | Raise x => raised x
  | Ok title =>
    andthen ([Suptitle title], Ok ())
    match png_name stream with
    | Raise x => raised x
    | Ok name =>
      let plotpath := join_str plotdir name in
      andthen (if verbose
               then ([Print ("Saved " ++ path_str plotpath)], Ok ())
               else skip)
     (andthen (act (Savefig plotpath) (survey_savefig plotpath))
     (andthen (if py_truthy (dict_get user "show")
               then act Show survey_show
               else skip)
              ([Close], Ok ())))
    end
  end.

Fixpoint for_each (streams : list Observer) (body : Observer -> run) : run :=
  match streams with
  | [] => skip
  | stream :: rest => andthen (body stream) (for_each rest body)
  end.

(** [main], lines 21-43. *)
Definition main (num : option Z) (indir config outdir : option string)
    (verbose : bool) (user : gmap string pyval) : run :=
  let source := str_or indir "." in
  match open_dataset source config with
  | Raise x => raised x
  | Ok dataset =>
    match get_streams dataset num with
    | Raise x => raised x
    | Ok streams =>
      let plotdir := fullpath (str_or outdir source) in
      andthen (act (Mkdir plotdir) (survey_mkdir plotdir))
          (for_each streams (plot_and_save plotdir verbose user))
    end
  end.

(** The images a run saved, in order. *)
Definition saved (r : run) : list Path :=
  omap (fun e => match e with Savefig p => Some p | _ => None end) r.1.

End Program.

(** What the command line of the survey tool leaves in [user], lines
    139-196: every option is present, [None] when not given. *)
Section CommandLine.
Context `{Numbers}.

Record options : Type := {
  opt_shell : option Z;                      (* --shell, type=int *)
  opt_radius : option (string * string);     (* --radius, nargs=2 *)
  opt_species : option string;               (* --species *)
  opt_time_unit : option string;             (* --time-unit *)
  opt_energy_unit : option string;           (* --energy-unit *)
  opt_flux_ylim : option (Float * Float);    (* --flux-ylim, nargs=2, type=float *)
  opt_fluence_ylim : option (Float * Float); (* --fluence-ylim *)
  opt_intflux_ylim : option (Float * Float); (* --intflux-ylim *)
  opt_show : bool;                           (* --show, store_true *)
}.

Definition entry {A} (f : A -> pyval) (o : option A) : pyval :=
  match o with
  | Some a => f a
  | None => VNone
  end.

Definition pair_of_str (p : string * string) : pyval :=
  VList [VStr p.1; VStr p.2].

Definition pair_of_float (p : Float * Float) : pyval :=
  VList [VFloat p.1; VFloat p.2].

Definition user_of (o : options) : gmap string pyval :=
  list_to_map
    [ ("shell", entry VInt (opt_shell o));
      ("radius", entry pair_of_str (opt_radius o));
      ("species", entry VStr (opt_species o));
      ("time_unit", entry VStr (opt_time_unit o));
      ("energy_unit", entry VStr (opt_energy_unit o));
      ("flux_ylim", entry pair_of_float (opt_flux_ylim o));
      ("fluence_ylim", entry pair_of_float (opt_fluence_ylim o));
      ("intflux_ylim", entry pair_of_float (opt_intflux_ylim o));
      ("show", VBool (opt_show o)) ].

End CommandLine.
End SurveyProgram.

(** ** flux-energy.py: what its command line leaves in [user] *)

Module FluxEnergyCommandLine.
Section CommandLine.
Context `{Numbers}.

(** Lines 247-286. Options with [nargs='+'] hold at least one item. *)
Record options : Type := {
  opt_time : option (string * list string);    (* --time, nargs='+' *)
  opt_shell : option (Z * list Z);             (* --shell, type=int, nargs='+' *)
  opt_radius : option (string * list string);  (* --radius, nargs='+' *)
  opt_xlim : option (Float * Float);           (* --xlim, nargs=2, type=float *)
  opt_ylim : option (Float * Float);           (* --ylim *)
}.

Definition items {A} (f : A -> pyval) (p : A * list A) : pyval :=
  VList (map f (p.1 :: p.2)).

Definition user_of (o : options) : gmap string pyval :=
  list_to_map
    [ ("time", SurveyProgram.entry (items VStr) (opt_time o));
      ("shell", SurveyProgram.entry (items VInt) (opt_shell o));
      ("radius", SurveyProgram.entry (items VStr) (opt_radius o));
      ("xlim", SurveyProgram.entry SurveyProgram.pair_of_float (opt_xlim o));
      ("ylim", SurveyProgram.entry SurveyProgram.pair_of_float (opt_ylim o)) ].

End CommandLine.
End FluxEnergyCommandLine.

(** ** flux-energy.py: the panels *)

(** The stream data of [eprempy.eprem] and the axis calls that take data,
    as [add_panel] uses them. *)
Class PanelBackend `{Quantity} `{PathLib} : Type := {
  StreamData : Type;
  Energy : Type;
  Flux : Type;
  Curve : Type;
  (* eprem.stream(num, config=config, source=path) *)
  open_stream : Z -> option string -> Path -> result StreamData;
  (* stream['energy'].withunit('MeV') *)
  stream_energy : StreamData -> result Energy;
  (* stream['flux'].withunit('1 / (cm^2 s sr MeV)') *)
  stream_flux : StreamData -> result Flux;
  (* energy[:].squeezed *)
  energy_all : Energy -> result Curve;
  (* flux[time, location, 'H+', :].squeezed *)
  flux_at : Flux -> pyval -> obj -> result Curve;
  (* the items of a measurement, as a for loop meets them *)
  meas_iter : Measurement -> result (list Measurement);
  (* ax.plot(x, y, ...) *)
  ax_plot : Curve -> Curve -> result unit;
  (* ax.set_xlim( *xlim ) *)
  ax_set_xlim : list pyval -> result unit;
  (* ax.set_ylim( *ylim ) *)
  ax_set_ylim : list pyval -> result unit;
  (* stream.dataview.source.parent.name *)
  run_name : StreamData -> result string;
}.

(** A computation that draws: what it has drawn so far, and its result. *)
Record prog (E A : Type) : Type := Prog { drawn : list E; outcome : result A }.
Arguments Prog {E A} drawn outcome.
Arguments drawn {E A} p.
Arguments outcome {E A} p.

#[global] Instance prog_ret {E} : MRet (prog E) := fun A a => Prog [] (Ok a).
#[global] Instance prog_bind {E} : MBind (prog E) := fun A B k r =>
  match outcome r with
  | Ok a => Prog (drawn r ++ drawn (k a)) (outcome (k a))
  | Raise e => Prog (drawn r) (Raise e)
  end.

(** A call that draws nothing. *)
Definition call {E A} (r : result A) : prog E A := Prog [] r.

(** One thing drawn. *)
Definition put {E} (e : E) : prog E unit := Prog [e] (Ok ()).

Fixpoint for_loop {E A} (l : list A) (body : A -> prog E unit) : prog E unit :=
  match l with
  | [] => mret ()
  | a :: rest => _ ← body a; for_loop rest body
  end.

Module FluxEnergyPanels.
Section Panels.
Context `{Quantity} `{PathLib} `{!PanelBackend}.

(** What is put on an axis, without the data. *)
Inductive artist : Type :=
| Line (fmt : option string) (label : string) (linestyle marker : option string)
| ResetCycle
| XLabel (s : string)
| YLabel (s : string)
| XLim (args : list pyval)
| YLim (args : list pyval)
| XScale (s : string)
| YScale (s : string)
| Title (s : string)
| LabelOuter
| Legend.

(** What is put on the figure: on one of its axes, or its title. *)
Inductive drawing : Type :=
| OnAxis (i : nat) (a : artist)
| FigSuptitle (s : string).

(** [ax.plot(x, y, fmt, label=..., linestyle=..., marker=...)] *)
Definition plot_line (x y : Curve) (fmt : option string) (label : string)
    (linestyle marker : option string) : prog artist unit :=
  _ ← call (ax_plot x y); put (Line fmt label linestyle marker).

(** The items of [for r in radii]. *)
Definition iterate (radii : obj) : result (list obj) :=
  match radii with
  | Plain v => items ← py_items v; Ok (map Plain items)
  | Meas m => items ← meas_iter m; Ok (map Meas items)
  end.

(** [f"r = {float(r)} {r.unit}"]; plain data has no [unit]. *)
Definition radius_label (r : obj) : result string :=
  x ← match r with
      | Meas m => meas_float m
      | Plain v => py_float v
      end;
  unit ← match r with
         | Meas m => Ok (meas_unit m)
         | Plain _ => Raise (LibraryError "AttributeError")
         end;
  Ok ("r = " ++ float_str x ++ " " ++ unit).

(** [if lim := user.get(key): set_lim( *lim )] *)
Definition set_limits (user : gmap string pyval) (key : string)
    (set_lim : list pyval -> result unit) (mark : list pyval -> artist)
    : prog artist unit :=
  let lim := dict_get user key in
  if py_truthy lim then
    args ← call (py_items lim); _ ← call (set_lim args); put (mark args)
  else mret ().

(** [add_panel], lines 128-167. *)
Definition add_panel (stream : StreamData) (user : gmap string pyval)
    : prog artist unit :=
  energy ← call (stream_energy stream);
  flux ← call (stream_flux stream);
  time ← call (FluxEnergy.get_time user);
  x ← call (energy_all energy);
  y ← call (flux_at flux time (Plain (VInt 0)));
  _ ← plot_line x y (Some "k:") "Seed spectrum" None None;
  radii ← call (FluxEnergy.get_radius user);
  rs ← call (iterate radii);
  _ ← for_loop rs (fun r =>
        x ← call (energy_all energy);
        y ← call (flux_at flux time r);
        label ← call (radius_label r);
        plot_line x y None label None None);
  _ ← put ResetCycle;
  shells ← call (FluxEnergy.get_shell user);
  ss ← call (py_items shells);
  _ ← for_loop ss (fun s =>
        x ← call (energy_all energy);
        y ← call (flux_at flux time (Plain s));
        plot_line x y None ("shell = " ++ py_str s) (Some "none") (Some "o"));
  _ ← put (XLabel "Energy [MeV]");
  _ ← put (YLabel "Flux [1 / (cm$^2$ s sr MeV)]");
  _ ← set_limits user "xlim" ax_set_xlim XLim;
  _ ← set_limits user "ylim" ax_set_ylim YLim;
  _ ← put (XScale "log");
  put (YScale "log").

(** The call [add_panel(ax, stream, **user)], lines 102 and 123: a bag that
    holds the key ['ax'] or ['stream'] gives a parameter a second value,
    which is a [TypeError] before the function is entered. *)
Definition call_add_panel (stream : StreamData) (user : gmap string pyval)
    : prog artist unit :=
  if bool_decide (is_Some (user !! "ax")) ||
     bool_decide (is_Some (user !! "stream"))
  then call (Raise TypeError)
  else add_panel stream user.

(** [f"Stream {num} ({timestr})"] *)
Definition stream_title (num : Z) (timestr : string) : string :=
  "Stream " ++ str_of_Z num ++ " (" ++ timestr ++ ")".

(** [plot_single], lines 109-125. *)
Definition plot_single (num : Z) (config : option string) (path : Path)
    (timestr : string) (user : gmap string pyval) : prog artist unit :=
  stream ← call (open_stream num config path);
  _ ← call_add_panel stream user;
  _ ← put (Title (stream_title num timestr));
  put Legend.

(** What is drawn on axis [i]. *)
Definition on_axis {A} (i : nat) (p : prog artist A) : prog drawing A :=
  Prog (map (OnAxis i) (drawn p)) (outcome p).

(** [zip(flataxs, paths)], the axes being numbered from 0. *)
Definition zip_axes (naxes : nat) (paths : list Path) : list (nat * Path) :=
  zip (seq 0 naxes) paths.

(** [plot_multiple], lines 86-106, on a figure of [naxes] axes. *)
Definition plot_multiple (naxes : nat) (num : Z) (config : option string)
    (paths : list Path) (timestr : string) (user : gmap string pyval)
    : prog drawing unit :=
  _ ← for_loop (zip_axes naxes paths) (fun ax_path =>
        on_axis ax_path.1
          (stream ← call (open_stream num config ax_path.2);
           _ ← call_add_panel stream user;
           name ← call (run_name stream);
           _ ← put (Title name);
           put LabelOuter));
  _ ← (if Nat.eqb naxes 0 then call (Raise IndexError)
       else on_axis 0 (put Legend));
  put (FigSuptitle (stream_title num timestr)).

(** The lines among what was drawn. *)
Definition lines (log : list artist) : list artist :=
  List.filter (fun a => match a with Line _ _ _ _ => true | _ => false end) log.

(** What [add_panel] itself may put on an axis: no title, no legend. *)
Definition panel_artist (a : artist) : Prop :=
  match a with
  | Title _ | Legend | LabelOuter => False
  | _ => True
  end.

(** What the panels of [plot_multiple] put on the figure: never a legend,
    never the figure title. *)
Definition panel_drawing (d : drawing) : Prop :=
  match d with
  | OnAxis _ a => a <> Legend
  | FigSuptitle _ => False
  end.

End Panels.
End FluxEnergyPanels.

(** ** Reference instances of the programs' backends *)

Module ReferencePrograms.
Import Reference.
#[local] Existing Instance sample_fs.

(** *** A data set of stream observers *)

Record observer : Type := {
  obs_png : string;            (* the name of its source file, as a .png *)
  obs_species : list string;
  obs_plots : bool;            (* whether its panels can be drawn *)
}.

Definition lookup_stream (d : list (Z * observer)) (n : Z) : result observer :=
  match List.find (fun kv => kv.1 =? n) d with
  | Some kv => Ok kv.2
  | None => Raise (LibraryError "KeyError")
  end.

Definition draw_panel (o : observer) : result unit :=
  if obs_plots o then Ok () else Raise (LibraryError "KeyError").

Definition listed_survey (d : list (Z * observer)) : SurveyBackend := {|
  Dataset := list (Z * observer);
  Observer := observer;
  open_dataset _ _ := Ok d;
  streams_getitem := lookup_stream;
  streams_values d := Ok (map snd d);
  observer_stream o := {| StreamSurvey.species_data := obs_species o |};
  png_name o := Ok (obs_png o);
  survey_subplots := Ok ();
  plots_flux o _ _ _ _ := draw_panel o;
  plots_fluence o _ _ _ _ := draw_panel o;
  plots_intflux o _ _ _ _ := draw_panel o;
  survey_mkdir _ := Ok ();
  survey_savefig _ := Ok ();
  survey_show := Ok ();
|}.

Definition obs0 : observer :=
  {| obs_png := "obs000000.png"; obs_species := ["H+"]; obs_plots := true |}.
Definition obs1 : observer :=
  {| obs_png := "obs000001.png"; obs_species := ["H+"]; obs_plots := true |}.
Definition obs2 : observer :=
  {| obs_png := "obs000002.png"; obs_species := ["H+"]; obs_plots := false |}.

(** Two observers that plot, and three of which the last does not. *)
Definition sample_survey : SurveyBackend := listed_survey [(0, obs0); (1, obs1)].
Definition broken_survey : SurveyBackend :=
  listed_survey [(0, obs0); (1, obs2); (2, obs1)].

(** *** Stream data that can always be read and drawn *)

Definition tagged_items (m : tagged) : result (list tagged) :=
  Ok (map (fun v => {| magnitudes := [v]; unit_of := unit_of m |})
          (magnitudes m)).

Definition blank_panels : PanelBackend := {|
  StreamData := unit;
  Energy := unit;
  Flux := unit;
  Curve := unit;
  open_stream _ _ _ := Ok ();
  stream_energy _ := Ok ();
  stream_flux _ := Ok ();
  energy_all _ := Ok ();
  flux_at _ _ _ := Ok ();
  meas_iter := tagged_items;
  ax_plot _ _ := Ok ();
  ax_set_xlim _ := Ok ();
  ax_set_ylim _ := Ok ();
  run_name _ := Ok "run";
|}.

(** *** Sample inputs *)

Definition one_au : tagged :=
  {| magnitudes := [@VFloat decimal_numbers {| mantissa := 10; places := 1 |}];
     unit_of := "au" |}.

Definition shell3_species1 : SurveyProgram.options :=
  {| SurveyProgram.opt_shell := Some 3;
     SurveyProgram.opt_radius := None;
     SurveyProgram.opt_species := Some "1";
     SurveyProgram.opt_time_unit := Some "day";
     SurveyProgram.opt_energy_unit := None;
     SurveyProgram.opt_flux_ylim := None;
     SurveyProgram.opt_fluence_ylim := None;
     SurveyProgram.opt_intflux_ylim := None;
     SurveyProgram.opt_show := false |}.

Definition two_shells_one_radius : gmap string pyval :=
  {[ "time" := VList [VStr "2.5"; VStr "hour"];
     "shell" := VList [VInt 0; VInt 2];
     "radius" := VList [VStr "1.0"; VStr "au"] ]}.

Definition three_times : FluxEnergyCommandLine.options :=
  {| FluxEnergyCommandLine.opt_time := Some ("1", ["2"; "3"]);
     FluxEnergyCommandLine.opt_shell := None;
     FluxEnergyCommandLine.opt_radius := Some ("x", ["au"]);
     FluxEnergyCommandLine.opt_xlim := None;
     FluxEnergyCommandLine.opt_ylim := None |}.

End ReferencePrograms.

(** ** More vocabulary *)

Section UnitsVocabulary.
Context `{Numbers}.

(** The display units as [UNITS] gives them. *)
Definition default_units : list (string * pyval) :=
  map (fun qu => (qu.1, VStr qu.2)) SurveyProgram.UNITS.

End UnitsVocabulary.

Section LogVocabulary.
Context `{Numbers} `{PathLib}.

(** The log of a run that reaches line 47 with a (float, unit) time. *)
Definition full_log (num : Z) (outdir : option string) (verbose : bool)
    (x : Float) : list FluxEnergy.event :=
  let plotdir := fullpath (FluxEnergy.or_dot outdir) in
  let plotpath :=
    join_str plotdir
      ("stream" ++ str_of_Z num ++ "_flux-t" ++ float_str x ++ "h.png") in
  (FluxEnergy.Mkdir plotdir ::
   (if verbose then [FluxEnergy.Print ("Saved " ++ path_str plotpath)] else []) ++
   [FluxEnergy.Savefig plotpath; FluxEnergy.Close])%list.

End LogVocabulary.

Section ScalarVocabulary.
Context `{Numbers}.

(** Values without items: [len] and iteration reject them. *)
Definition is_scalar (v : pyval) : bool :=
  match v with
  | VBool _ | VInt _ | VFloat _ => true
  | _ => false
  end.

End ScalarVocabulary.

(** * Properties *)

(** ** Reading the keyword bag *)

Section Bag.
Context `{Numbers}.
Implicit Types user : gmap string pyval.

Lemma dict_get_unset user key : unset user key <-> dict_get user key = VNone.
Proof.
  unfold unset, dict_get. split.
  - intros [-> | ->]; reflexivity.
  - destruct (user !! key) as [v|]; simpl; [intros ->; by right | by left].
Qed.

Lemma dict_get_delete user key : dict_get (delete key user) key = VNone.
Proof. unfold dict_get. by rewrite lookup_delete_eq. Qed.

Lemma dict_get_insert user key v : dict_get (<[key := v]> user) key = v.
Proof. unfold dict_get. by rewrite lookup_insert_eq. Qed.

Lemma dict_get_delete_ne user key key' :
  key <> key' -> dict_get (delete key user) key' = dict_get user key'.
Proof. intros Hne. unfold dict_get. by rewrite lookup_delete_ne. Qed.

Lemma dict_get_insert_ne user key key' v :
  key <> key' -> dict_get (<[key := v]> user) key' = dict_get user key'.
Proof. intros Hne. unfold dict_get. by rewrite lookup_insert_ne. Qed.

Lemma length_chars s : length (chars s) = String.length s.
Proof.
  unfold chars. rewrite length_map.
  induction s as [|c s IH]; simpl; [reflexivity | by rewrite IH].
Qed.

(** A value with items is a sequence: it is not [None] and its length is the
    number of its items. *)
Lemma py_items_len v l :
  py_items v = Ok l -> v <> VNone /\ py_len v = Ok (Z.of_nat (length l)).
Proof.
  destruct v; simpl; intros Heq; try discriminate;
    injection Heq as <-; split; try discriminate; try reflexivity.
  by rewrite length_chars.
Qed.

Lemma py_getitem_items v l i :
  py_items v = Ok l -> py_getitem v i = index_items l i.
Proof. unfold py_getitem. by intros ->. Qed.

Lemma index_items_last {A} (l : list A) (x : A) :
  index_items (l ++ [x]) (-1) = Ok x.
Proof.
  unfold index_items. rewrite length_app. simpl length.
  replace (-1 <? 0) with true by reflexivity.
  replace (-1 + Z.of_nat (length l + 1)) with (Z.of_nat (length l)) by lia.
  destruct (Z.ltb_spec (Z.of_nat (length l)) 0); [lia |].
  destruct (Z.leb_spec (Z.of_nat (length l + 1)) (Z.of_nat (length l))); [lia |].
  simpl. rewrite Nat2Z.id, nth_error_app2 by lia. by rewrite Nat.sub_diag.
Qed.

Lemma mapR_all_int (ns : list Z) : mapR py_int (map VInt ns) = Ok ns.
Proof. induction ns as [|n ns IH]; simpl; [reflexivity | by rewrite IH]. Qed.

End Bag.

(** ** The normalisers of flux-energy.py *)

Section FluxEnergyNormalizers.
Context `{Quantity}.
Implicit Types user : gmap string pyval.
Import FluxEnergy.

Lemma get_time_unset user : unset user "time" -> get_time user = Ok (VInt 0).
Proof. intros Hu%dict_get_unset. unfold get_time. by rewrite Hu. Qed.

(** Past the [None] test, [get_time] dispatches on the number of items. *)
Lemma get_time_items user l :
  py_items (dict_get user "time") = Ok l ->
  get_time user =
    match l with
    | [x] => i ← py_int x; Ok (VInt i)
    | [x; u] => f ← py_float x; Ok (VTuple [VFloat f; u])
    | _ => Raise ValueError
    end.
Proof.
  intros Hl. destruct (py_items_len _ _ Hl) as [Hnone Hlen].
  unfold get_time.
  destruct (dict_get user "time") eqn:Hv; try discriminate Hl;
    rewrite Hlen; unfold py_getitem; rewrite Hl;
    destruct l as [|x [|u [|w l]]]; try reflexivity;
    cbn [mbind result_bind];
    (destruct (Z.eqb_spec (Z.of_nat (length (x :: u :: w :: l))) 1) as [E|_];
     [simpl in E; lia |]);
    (destruct (Z.eqb_spec (Z.of_nat (length (x :: u :: w :: l))) 2) as [E|_];
     [simpl in E; lia | reflexivity]).
Qed.

(** C1. [get_time] returns index 0 when the ['time'] entry is absent or
    [None]; [int] of the single item when the entry has exactly one; the
    pair of [float] of the first item and the second item as given when it
    has exactly two; and raises [ValueError] for every other number of
    items. *)
Theorem get_time_spec user :
  (unset user "time" -> get_time user = Ok (VInt 0)) /\
  (forall x, py_items (dict_get user "time") = Ok [x] ->
     get_time user = (i ← py_int x; Ok (VInt i))) /\
  (forall x u, py_items (dict_get user "time") = Ok [x; u] ->
     get_time user = (f ← py_float x; Ok (VTuple [VFloat f; u]))) /\
  (forall l, py_items (dict_get user "time") = Ok l ->
     length l <> 1%nat -> length l <> 2%nat ->
     get_time user = Raise ValueError).
Proof.
  split; [apply get_time_unset |].
  split; [intros x Hx; by rewrite (get_time_items _ _ Hx) |].
  split; [intros x u Hx; by rewrite (get_time_items _ _ Hx) |].
  intros l Hl H1 H2. rewrite (get_time_items _ _ Hl).
  destruct l as [|x [|u [|w l]]]; simpl in *; congruence.
Qed.

Lemma get_shell_unset user : unset user "shell" -> get_shell user = Ok (VTuple []).
Proof. intros Hu%dict_get_unset. unfold get_shell. by rewrite Hu. Qed.

Lemma get_shell_items user l :
  py_items (dict_get user "shell") = Ok l -> get_shell user = Ok (VTuple l).
Proof.
  intros Hl. destruct (py_items_len _ _ Hl) as [Hnone _].
  unfold get_shell.
  destruct (dict_get user "shell"); try discriminate Hl; by rewrite Hl.
Qed.


Lemma get_radius_unset user :
  unset user "radius" -> get_radius user = Ok (Plain (VTuple [])).
Proof. intros Hu%dict_get_unset. unfold get_radius. by rewrite Hu. Qed.

(** Past the [None] test, [get_radius] with one item builds a measurement
    from it. *)
Lemma get_radius_one user x :
  py_items (dict_get user "radius") = Ok [x] ->
  get_radius user = (m ← measure [x; VStr "au"]; Ok (Meas m)).
Proof.
  intros Hl. destruct (py_items_len _ _ Hl) as [Hnone Hlen].
  unfold get_radius.
  destruct (dict_get user "radius") eqn:Hv; try discriminate Hl;
    rewrite Hlen; unfold py_getitem; rewrite Hl; reflexivity.
Qed.

(** With any other number of items it tries [float] on the last one. *)
Lemma get_radius_several user l :
  py_items (dict_get user "radius") = Ok l -> length l <> 1%nat ->
  get_radius user =
    try_except_ValueError
      (last ← index_items l (-1); py_float last)
      (unit ← index_items l (-1);
       values ← mapR py_float (removelast l);
       m ← measure (map VFloat values ++ [unit]); Ok (Meas m))
      (m ← measure [dict_get user "radius"; VStr "au"]; Ok (Meas m)).
Proof.
  intros Hl Hne. destruct (py_items_len _ _ Hl) as [Hnone Hlen].
  unfold get_radius.
  destruct (dict_get user "radius") eqn:Hv; try discriminate Hl;
    rewrite Hlen; unfold py_getitem, py_init_items; rewrite Hl;
    cbn [mbind result_bind];
    (destruct (Z.eqb_spec (Z.of_nat (length l)) 1) as [E|_];
     [lia | reflexivity]).
Qed.

Lemma existsb_text_items (l : list string) :
  l <> [] -> existsb is_text (map VStr l) = true.
Proof. by destruct l. Qed.

(** C3 fails on the code. For several radius items that are all numeric
    text, as the command line supplies them, [get_radius] does not return
    a measurement of them under ["au"]: line 208 passes the entry to the
    constructor as it is, without the [float] conversion of line 206, and a
    library that takes numbers only raises [TypeError]. *)
Theorem get_radius_numeric_text_raises user (l : list string) (z : string) :
  rejects_text ->
  dict_get user "radius" = VList (map VStr (l ++ [z])) -> l <> [] ->
  is_ok (py_float (VStr z)) = true ->
  get_radius user = Raise TypeError.
Proof.
  intros Hlaw Hd Hne Hz.
  assert (Hl : py_items (dict_get user "radius")
               = Ok (map VStr l ++ [VStr z])%list)
    by (rewrite Hd, map_app; reflexivity).
  rewrite (get_radius_several _ _ Hl)
    by (rewrite length_app, length_map; simpl; destruct l; simpl;
        [congruence | lia]).
  rewrite index_items_last. cbn [mbind result_bind].
  destruct (py_float (VStr z)); [|discriminate].
  cbn [try_except_ValueError]. rewrite Hd, Hlaw; [reflexivity |].
  apply existsb_text_items. by destruct l.
Qed.

End FluxEnergyNormalizers.

(** ** The normalisers of the survey tool *)

Section SurveyNormalizers.
Context `{Quantity}.
Implicit Types user : gmap string pyval.

Lemma observers_get_location_unset user :
  unset user "shell" -> unset user "radius" ->
  Observers.get_location user = Ok (Plain (VInt 0)).
Proof.
  intros Hs%dict_get_unset Hr%dict_get_unset.
  unfold Observers.get_location. by rewrite Hs, Hr.
Qed.

Lemma observers_get_species_unset user :
  unset user "species" -> Observers.get_species user = Ok (Plain (VInt 0)).
Proof.
  intros Hs%dict_get_unset. unfold Observers.get_species. by rewrite Hs.
Qed.

Lemma unset_delete user key : unset (delete key user) key.
Proof. left. apply lookup_delete_eq. Qed.

Lemma unset_insert_None user key : unset (<[key := VNone]> user) key.
Proof. right. apply lookup_insert_eq. Qed.

Lemma unset_delete_ne user key key' :
  key <> key' -> unset user key' -> unset (delete key user) key'.
Proof. intros Hne. unfold unset. by rewrite lookup_delete_ne. Qed.

Lemma unset_insert_ne user key key' v :
  key <> key' -> unset user key' -> unset (<[key := v]> user) key'.
Proof. intros Hne. unfold unset. by rewrite lookup_insert_ne. Qed.

(** C5. For every bag, each normaliser gives the same result with its key
    removed as with its key mapped to [None], and that result is its
    default: [get_time] 0, [get_shell] and [get_radius] the empty tuple,
    [get_species] 0, and [get_location], whose keys are ['shell'] and
    ['radius'], shell 0 in each of the four ways of leaving both unset. *)
Theorem normalizers_default_when_unset user :
  (FluxEnergy.get_time (delete "time" user) = Ok (VInt 0) /\
   FluxEnergy.get_time (<["time" := VNone]> user) = Ok (VInt 0)) /\
  (FluxEnergy.get_shell (delete "shell" user) = Ok (VTuple []) /\
   FluxEnergy.get_shell (<["shell" := VNone]> user) = Ok (VTuple [])) /\
  (FluxEnergy.get_radius (delete "radius" user) = Ok (Plain (VTuple [])) /\
   FluxEnergy.get_radius (<["radius" := VNone]> user) = Ok (Plain (VTuple []))) /\
  (Observers.get_species (delete "species" user) = Ok (Plain (VInt 0)) /\
   Observers.get_species (<["species" := VNone]> user) = Ok (Plain (VInt 0))) /\
  (Observers.get_location (delete "shell" (delete "radius" user))
     = Ok (Plain (VInt 0)) /\
   Observers.get_location (delete "shell" (<["radius" := VNone]> user))
     = Ok (Plain (VInt 0)) /\
   Observers.get_location (<["shell" := VNone]> (delete "radius" user))
     = Ok (Plain (VInt 0)) /\
   Observers.get_location (<["shell" := VNone]> (<["radius" := VNone]> user))
     = Ok (Plain (VInt 0))).
Proof.
  repeat split;
    first [ apply get_time_unset | apply get_shell_unset
          | apply get_radius_unset | apply observers_get_species_unset
          | apply observers_get_location_unset ];
    first [ apply unset_delete | apply unset_insert_None
          | apply unset_delete_ne; [discriminate |]
          | apply unset_insert_ne; [discriminate |] ];
    first [ apply unset_delete | apply unset_insert_None ].
Qed.

(** C10. The [get_location] and [get_species] of stream-survey.py return,
    or raise, exactly what those of support/observers.py do, on every
    bag. *)
Theorem survey_normalizers_agree_with_observers user :
  StreamSurvey.get_location user = Observers.get_location user /\
  StreamSurvey.get_species user = Observers.get_species user.
Proof.
  split.
  - unfold StreamSurvey.get_location, Observers.get_location.
    destruct (dict_get user "shell"); reflexivity.
  - unfold StreamSurvey.get_species, Observers.get_species.
    destruct (dict_get user "species"); reflexivity.
Qed.

End SurveyNormalizers.

(** ** The survey title *)

Section SurveyTitle.
Context `{Quantity}.
Implicit Types user : gmap string pyval.
Import StreamSurvey.

Lemma make_suptitle_shell0 stream species title :
  make_suptitle stream (Plain (VInt 0)) species = Ok title ->
  contains "shell = 0" title = true.
Proof.
  unfold make_suptitle. cbn [is_int mbind result_bind].
  match goal with
  | |- mbind _ ?r = _ -> _ => destruct r as [strspe|e]
  end; cbn [mbind result_bind]; [|discriminate].
  intros [= <-]. reflexivity.
Qed.

(** C8. When neither a shell nor a radius nor a species is supplied, the
    survey resolves location to shell 0 and species to index 0, the title
    [plot_stream] sets is [make_suptitle] of these, every title so made
    contains ["shell = 0"], and one is made whenever the stream lists at
    least one species. *)
Theorem survey_defaults user stream :
  unset user "shell" -> unset user "radius" -> unset user "species" ->
  get_location user = Ok (Plain (VInt 0)) /\
  get_species user = Ok (Plain (VInt 0)) /\
  plot_stream_suptitle stream user
    = make_suptitle stream (Plain (VInt 0)) (Plain (VInt 0)) /\
  (forall title, plot_stream_suptitle stream user = Ok title ->
     contains "shell = 0" title = true) /\
  (species_data stream <> [] ->
     exists title, plot_stream_suptitle stream user = Ok title).
Proof.
  intros Hs%dict_get_unset Hr%dict_get_unset Hp%dict_get_unset.
  assert (Hloc : get_location user = Ok (Plain (VInt 0)))
    by (unfold get_location; by rewrite Hs, Hr).
  assert (Hspe : get_species user = Ok (Plain (VInt 0)))
    by (unfold get_species; by rewrite Hp).
  assert (Htitle : plot_stream_suptitle stream user
            = make_suptitle stream (Plain (VInt 0)) (Plain (VInt 0)))
    by (unfold plot_stream_suptitle; by rewrite Hloc, Hspe).
  repeat split; try assumption.
  - intros title. rewrite Htitle. apply make_suptitle_shell0.
  - intros Hne. rewrite Htitle. destruct stream as [[|name rest]]; [done |].
    by eexists.
Qed.

Lemma make_suptitle_bad_location stream location species :
  location_kind_ok location = false ->
  make_suptitle stream location species = Raise TypeError.
Proof.
  unfold make_suptitle. destruct location as [v|m]; [|discriminate].
  simpl. by intros ->.
Qed.

Lemma make_suptitle_bad_species stream location species :
  location_kind_ok location = true -> location_readable location = true ->
  species_kind_ok species = false ->
  make_suptitle stream location species = Raise TypeError.
Proof.
  unfold make_suptitle. intros Hk Hr Hs.
  destruct location as [v|m]; simpl in Hk, Hr.
  - rewrite Hk. cbn [mbind result_bind].
    destruct species as [[]|]; try discriminate; reflexivity.
  - destruct (meas_float m); [|discriminate]. cbn [mbind result_bind].
    destruct species as [[]|]; try discriminate; reflexivity.
Qed.

Lemma make_suptitle_returns stream location species :
  location_kind_ok location = true -> species_kind_ok species = true ->
  location_readable location = true ->
  species_readable stream species = true ->
  exists title, make_suptitle stream location species = Ok title.
Proof.
  unfold make_suptitle. intros Hk Hs Hr Hd.
  destruct location as [v|m]; simpl in Hk, Hr;
    [rewrite Hk | destruct (meas_float m); [|discriminate]];
    cbn [mbind result_bind];
    (destruct species as [w|]; [|discriminate]);
    simpl in Hd; (destruct (is_int w) eqn:Hw;
      [ destruct (py_int w) as [i|]; [|discriminate]; cbn [mbind result_bind] in *;
        destruct (index_items _ i); [|discriminate]; by eexists
      | destruct w; try discriminate; by eexists ]).
Qed.

(** An integer species reads the stream's species: the lookup returns or
    raises [IndexError], never [TypeError]. *)
Ltac integer_species w :=
  destruct w; try discriminate; simpl; unfold index_items;
  repeat match goal with
         | |- context [if ?b then _ else _] => destruct b
         | |- context [nth_error ?l ?i] => destruct (nth_error l i)
         end; discriminate.

(** A species that is not an integer is a string, or of the wrong kind. *)
Ltac other_species w :=
  destruct w; try discriminate; intros _; right; left; reflexivity.

Lemma make_suptitle_TypeError stream location species :
  make_suptitle stream location species = Raise TypeError ->
  location_kind_ok location = false \/ species_kind_ok species = false \/
  exists m, location = Meas m /\ meas_float m = Raise TypeError.
Proof.
  unfold make_suptitle.
  destruct location as [v|m]; simpl.
  - destruct (is_int v) eqn:Hv; [|by left]. cbn [mbind result_bind].
    destruct species as [w|]; [|by (right; left)].
    destruct (is_int w) eqn:Hw.
    + integer_species w.
    + other_species w.
  - destruct (meas_float m) as [x|e] eqn:Hm; cbn [mbind result_bind].
    + destruct species as [w|]; [|by (right; left)].
      destruct (is_int w) eqn:Hw.
      * integer_species w.
      * other_species w.
    + intros [= ->]. right; right. by exists m.
Qed.

Lemma make_suptitle_float_error stream location species m e :
  location = Meas m -> meas_float m = Raise e ->
  make_suptitle stream location species = Raise e.
Proof. intros -> Hm. unfold make_suptitle. by rewrite Hm. Qed.

Lemma make_suptitle_lookup_error stream location species v e :
  location_kind_ok location = true -> location_readable location = true ->
  species = Plain v -> is_int v = true ->
  (i ← py_int v; index_items (species_data stream) i) = Raise e ->
  make_suptitle stream location species = Raise e.
Proof.
  unfold make_suptitle. intros Hk Hr -> Hv Hlook.
  destruct location as [w|m]; simpl in Hk, Hr;
    [rewrite Hk | destruct (meas_float m); [|discriminate]];
    cbn [mbind result_bind]; rewrite Hv;
    (destruct (py_int v) as [i|]; cbn [mbind result_bind] in *;
     [by rewrite Hlook | exact Hlook]).
Qed.

Lemma make_suptitle_error_source stream location species e :
  make_suptitle stream location species = Raise e ->
  (e = TypeError /\
   (location_kind_ok location = false \/ species_kind_ok species = false)) \/
  (exists m, location = Meas m /\ meas_float m = Raise e) \/
  (e = IndexError /\ exists v, species = Plain v /\ is_int v = true /\
                               species_readable stream species = false).
Proof.
  assert (Hspecies : forall strloc : string,
    (strspe ← match species with
              | Plain v =>
                  if is_int v then
                    i ← py_int v;
                    name ← index_items (species_data stream) i;
                    Ok ("species = " ++ name)
                  else match v with
                       | VStr s => Ok ("species = " ++ s)
                       | _ => Raise TypeError
                       end
              | Meas _ => Raise TypeError
              end;
     Ok (strloc ++ " | " ++ strspe)) = Raise e ->
    (e = TypeError /\ species_kind_ok species = false) \/
    (e = IndexError /\ exists v, species = Plain v /\ is_int v = true /\
                                 species_readable stream species = false)).
  { intros strloc. destruct species as [w|]; [|intros [= <-]; by left].
    destruct (is_int w) eqn:Hw.
    - intros Hraise. right.
      assert (Hlook : (i ← py_int w; index_items (species_data stream) i)
                      = Raise e).
      { destruct w; try discriminate; cbn [py_int mbind result_bind] in *;
          (destruct (index_items _ _); [discriminate | exact Hraise]). }
      split.
      + destruct w; try discriminate; cbn [py_int mbind result_bind] in Hlook;
          unfold index_items in Hlook;
          repeat match type of Hlook with
                 | context [if ?b then _ else _] => destruct b
                 | context [nth_error ?l ?i] => destruct (nth_error l i)
                 end; congruence.
      + exists w. repeat split; [exact Hw |]. simpl. by rewrite Hw, Hlook.
    - destruct w; try discriminate; intros [= <-]; left; by split. }
  unfold make_suptitle.
  destruct location as [v|m]; simpl.
  - destruct (is_int v) eqn:Hv; [|intros [= <-]; left; split; [reflexivity | by left]].
    cbn [mbind result_bind]. intros Hraise.
    destruct (Hspecies _ Hraise) as [[-> Hs] | Hidx];
      [left; split; [reflexivity | by right] | right; right; exact Hidx].
  - destruct (meas_float m) as [x|e'] eqn:Hm; cbn [mbind result_bind].
    + intros Hraise.
      destruct (Hspecies _ Hraise) as [[-> Hs] | Hidx];
        [left; split; [reflexivity | by right] | right; right; exact Hidx].
    + intros [= <-]. right; left. by exists m.
Qed.

(** C9, as the code has it. [make_suptitle] raises [TypeError] when the
    location is neither an integer nor a measurement, and, once the location
    is written, when the species is neither an integer nor a string. On
    well-kinded arguments it returns a title provided [float] of a
    measurement succeeds and an integer species is an index of the stream's
    species. Otherwise the error propagates: an error of [float] of the
    measurement is raised as it is, whatever the species, and, once the
    location is written, so is the error of the lookup of an integer
    species. A [TypeError] comes from a wrong kind or from [float] of the
    measurement, and every error has one of these sources: [TypeError] for
    a wrong kind, the error of [float], or [IndexError] for an integer
    species that is no index of the stream's species. *)
Theorem make_suptitle_errors stream location species :
  (location_kind_ok location = false ->
     make_suptitle stream location species = Raise TypeError) /\
  (location_kind_ok location = true -> location_readable location = true ->
   species_kind_ok species = false ->
     make_suptitle stream location species = Raise TypeError) /\
  (location_kind_ok location = true -> species_kind_ok species = true ->
   location_readable location = true ->
   species_readable stream species = true ->
     exists title, make_suptitle stream location species = Ok title) /\
  (make_suptitle stream location species = Raise TypeError ->
     location_kind_ok location = false \/ species_kind_ok species = false \/
     exists m, location = Meas m /\ meas_float m = Raise TypeError) /\
  (forall m e, location = Meas m -> meas_float m = Raise e ->
     make_suptitle stream location species = Raise e) /\
  (location_kind_ok location = true -> location_readable location = true ->
   forall v e, species = Plain v -> is_int v = true ->
     (i ← py_int v; index_items (species_data stream) i) = Raise e ->
     make_suptitle stream location species = Raise e) /\
  (forall e, make_suptitle stream location species = Raise e ->
     (e = TypeError /\
      (location_kind_ok location = false \/ species_kind_ok species = false)) \/
     (exists m, location = Meas m /\ meas_float m = Raise e) \/
     (e = IndexError /\ exists v, species = Plain v /\ is_int v = true /\
                                  species_readable stream species = false)).
Proof.
  split; [apply make_suptitle_bad_location |].
  split; [apply make_suptitle_bad_species |].
  split; [apply make_suptitle_returns |].
  split; [apply make_suptitle_TypeError |].
  split; [intros m e; apply make_suptitle_float_error |].
  split; [intros Hk Hr v e; by apply make_suptitle_lookup_error |].
  intros e. apply make_suptitle_error_source.
Qed.

End SurveyTitle.

(** ** Path resolution *)

Section PathResolution.
Context `{PathLib}.
Import FluxEnergy.

Lemma forallb_is_dir (children : list Path) :
  Forall (fun c => is_dir c = true) children -> forallb is_dir children = true.
Proof. induction 1 as [|c l Hc _ IH]; simpl; [reflexivity | by rewrite Hc, IH]. Qed.

Lemma forallb_not_all_dir (children : list Path) :
  Exists (fun c => is_dir c = false) children -> forallb is_dir children = false.
Proof.
  induction 1 as [c l Hc | c l _ IH]; simpl.
  - by rewrite Hc.
  - rewrite IH. apply andb_false_r.
Qed.

(** C6. With a base directory and no run selector, where [children] is the
    listing of the base directory: if the base is a directory and every
    child is a directory, [build_paths] returns exactly the children; if
    some child is not a directory, it returns the base directory alone. *)
Theorem build_paths_directory_inference (d : string) (children : list Path) :
  glob (fullpath d) "*" = Ok children ->
  (is_dir (fullpath d) = true ->
   Forall (fun c => is_dir c = true) children ->
     build_paths (Some d) None = Ok (PathTuple children)) /\
  (Exists (fun c => is_dir c = false) children ->
     build_paths (Some d) None = Ok (PathTuple [fullpath d])).
Proof.
  intros Hglob. unfold build_paths. rewrite Hglob. cbn [mbind result_bind].
  split.
  - intros Hd Hall. by rewrite Hd, (forallb_is_dir _ Hall).
  - intros Hex. by rewrite (forallb_not_all_dir _ Hex), andb_false_r.
Qed.

Lemma length_runs_one (names : list string) :
  Nat.eqb (length names) 1 = false <-> length names <> 1%nat.
Proof. apply Nat.eqb_neq. Qed.

(** C7, as the code has it. For an explicit list of run names,
    [build_paths] returns one path per name, in the order of the names and
    whatever the file system holds, when no base directory is given, and
    when a base directory is given and the list does not have exactly one
    name. A single name under a base directory is a pattern: the result is
    its matches in the base directory, however many there are. *)
Theorem build_paths_explicit_names (names : list string) :
  build_paths None (Some (RunList names))
    = Ok (PathTuple (one_path_per_name None names)) /\
  (forall d, length names <> 1%nat ->
     build_paths (Some d) (Some (RunList names))
       = Ok (PathTuple (one_path_per_name (Some d) names))) /\
  (forall indir, length (one_path_per_name indir names) = length names) /\
  (forall d name, names = [name] ->
     build_paths (Some d) (Some (RunList names))
       = (ps ← glob (fullpath d) name;
          Ok (PathTuple (map (join_path (fullpath d)) ps)))).
Proof.
  split; [reflexivity |].
  split.
  - intros d Hne%length_runs_one. unfold build_paths. simpl runs_items.
    by rewrite Hne.
  - split.
    + intros [d|]; simpl; apply length_map.
    + intros d name ->. reflexivity.
Qed.

End PathResolution.

(** ** The entry point of flux-energy.py *)

Section EntryPoint.
Context `{Numbers} `{PathLib} `{!Backend}.
Implicit Types user : gmap string pyval.
Import FluxEnergy.

Lemma saved_raise e : saved ([], Raise e) = [].
Proof. reflexivity. Qed.

(** With an integer time spec, [main] raises, at the latest where it takes
    [time[0]] for the file name, and has saved nothing. *)
Lemma main_integer_time num config indir runs outdir verbose user n :
  get_time user = Ok (VInt n) ->
  let r := main num config indir runs outdir verbose user in
  saved r = [] /\ is_ok r.2 = false.
Proof.
  intros Ht. unfold main, step.
  destruct (build_paths indir runs) as [paths|]; [|done].
  destruct (len_paths paths) as [ps|]; [|done].
  destruct (subplots _); [|done].
  rewrite Ht. cbn [is_int].
  destruct (if 1 <? _ then _ else _); [|done].
  destruct tight_layout; [|done].
  unfold emit. destruct (mkdir _); done.
Qed.

(** With a (float, unit) time spec and every library call succeeding,
    [main] saves once, under the name built from the float. *)
Lemma main_measured_time num config indir runs outdir verbose user ps x u :
  build_paths indir runs = Ok (PathTuple ps) ->
  subplots (Z.of_nat (length ps)) = Ok () ->
  get_time user = Ok (VTuple [VFloat x; u]) ->
  (forall timestr,
     (if 1 <? Z.of_nat (length ps)
      then plot_multiple num config ps timestr user
      else p0 ← index_items ps 0; plot_single num config p0 timestr user)
     = Ok ()) ->
  tight_layout = Ok () ->
  (forall p, mkdir p = Ok ()) -> (forall p, savefig p = Ok ()) ->
  let plotdir := fullpath (or_dot outdir) in
  let plotpath :=
    join_str plotdir
      ("stream" ++ str_of_Z num ++ "_flux-t" ++ float_str x ++ "h.png") in
  main num config indir runs outdir verbose user
    = (Mkdir plotdir ::
       (if verbose then [Print ("Saved " ++ path_str plotpath)] else []) ++
       [Savefig plotpath; Close], Ok ()).
Proof.
  intros Hp Hs Ht Hplot Hl Hm Hf. unfold main, step.
  rewrite Hp. cbn [len_paths]. rewrite Hs, Ht. cbn [is_int].
  unfold py_getitem. cbn [py_items mbind result_bind].
  replace (index_items [VFloat x; u] 0) with (Ok (VFloat x)) by reflexivity.
  replace (index_items [VFloat x; u] 1) with (Ok u) by reflexivity.
  cbn [mbind result_bind]. rewrite Hplot, Hl. unfold emit. rewrite Hm, Hf.
  by destruct verbose.
Qed.

Lemma main_measured_time_saved
    num config indir runs outdir verbose user ps x u :
  build_paths indir runs = Ok (PathTuple ps) ->
  subplots (Z.of_nat (length ps)) = Ok () ->
  get_time user = Ok (VTuple [VFloat x; u]) ->
  (forall timestr,
     (if 1 <? Z.of_nat (length ps)
      then plot_multiple num config ps timestr user
      else p0 ← index_items ps 0; plot_single num config p0 timestr user)
     = Ok ()) ->
  tight_layout = Ok () ->
  (forall p, mkdir p = Ok ()) -> (forall p, savefig p = Ok ()) ->
  saved (main num config indir runs outdir verbose user)
    = [join_str (fullpath (or_dot outdir))
         ("stream" ++ str_of_Z num ++ "_flux-t" ++ float_str x ++ "h.png")].
Proof.
  intros Hp Hs Ht Hplot Hl Hm Hf.
  rewrite (main_measured_time _ _ _ _ _ _ _ _ _ _ Hp Hs Ht Hplot Hl Hm Hf).
  by destruct verbose.
Qed.

(** When [get_time] raises, so does [main], before any effect. *)
Lemma main_time_raises num config indir runs outdir verbose user e :
  get_time user = Raise e ->
  let r := main num config indir runs outdir verbose user in
  saved r = [] /\ is_ok r.2 = false.
Proof.
  intros Ht. unfold main, step.
  destruct (build_paths indir runs) as [paths|]; [|done].
  destruct (len_paths paths) as [ps|]; [|done].
  destruct (subplots _); [|done].
  by rewrite Ht.
Qed.

Lemma get_time_single user x :
  get_time (<["time" := VList [x]]> user) = (i ← py_int x; Ok (VInt i)).
Proof. apply (get_time_items _ [x]). by rewrite dict_get_insert. Qed.

(** C2 fails on the code: whenever the ['time'] option is absent, [None],
    or a list of one item, [get_time] yields an integer (or rejects the
    item), [time[0]] on line 47 raises on the integer, and [main] ends in an
    error with no image saved. *)
Theorem main_integer_time_saves_nothing
    num config indir runs outdir verbose user x :
  let absent := main num config indir runs outdir verbose (delete "time" user) in
  let null := main num config indir runs outdir verbose (<["time" := VNone]> user) in
  let index :=
    main num config indir runs outdir verbose (<["time" := VList [x]]> user) in
  (saved absent = [] /\ is_ok absent.2 = false) /\
  (saved null = [] /\ is_ok null.2 = false) /\
  (saved index = [] /\ is_ok index.2 = false).
Proof.
  split; [apply (main_integer_time _ _ _ _ _ _ _ 0), get_time_unset, unset_delete |].
  split; [apply (main_integer_time _ _ _ _ _ _ _ 0), get_time_unset,
            unset_insert_None |].
  pose proof (get_time_single user x) as Ht.
  destruct (py_int x) as [i|e]; cbn [mbind result_bind] in Ht.
  - by apply (main_integer_time _ _ _ _ _ _ _ i).
  - by apply (main_time_raises _ _ _ _ _ _ _ e).
Qed.

End EntryPoint.

(** * The statements on the reference instances *)

Section Evaluation.
Import Reference.
#[local] Existing Instance sample_fs.

Abbreviation bag := (gmap string pyval).
Abbreviation dec m p := (VFloat {| mantissa := m; places := p |}).

Lemma get_time_spec_witness :
  FluxEnergy.get_time (∅ : bag) = Ok (VInt 0) /\
  FluxEnergy.get_time ({["time" := VNone]} : bag) = Ok (VInt 0) /\
  FluxEnergy.get_time ({["time" := VList [VInt 5]]} : bag) = Ok (VInt 5) /\
  FluxEnergy.get_time ({["time" := VList [VStr "2.5"; VStr "hour"]]} : bag)
    = Ok (VTuple [dec 25 1; VStr "hour"]) /\
  FluxEnergy.get_time ({["time" := VList [VInt 1; VInt 2; VInt 3]]} : bag)
    = Raise ValueError.
Proof.
  split; [apply (proj1 (get_time_spec _)); left; reflexivity |].
  split; [apply (proj1 (get_time_spec _)); right; reflexivity |].
  split; [apply (proj1 (proj2 (get_time_spec _)) (VInt 5)); reflexivity |].
  split.
  - etrans;
      [apply (proj1 (proj2 (proj2 (get_time_spec _))) (VStr "2.5") (VStr "hour"))
      |]; reflexivity.
  - apply (proj2 (proj2 (proj2 (get_time_spec _)))
             [VInt 1; VInt 2; VInt 3]); [reflexivity | simpl; lia | simpl; lia].
Defined.



Lemma tagged_rejects_text : rejects_text.
Proof.
  intros items unit Hex.
  assert (Hnum : forallb is_number items = false).
  { induction items as [|v items IH]; [discriminate |].
    destruct v; simpl in *; try reflexivity; rewrite IH; done. }
  change (measure [VList items; VStr unit])
    with (tagged_measure [VList items; VStr unit]).
  unfold tagged_measure. cbn [List.last removelast measured_values].
  destruct items as [|v items]; [discriminate |]. by rewrite Hnum.
Qed.

(** The numeric text [--radius 3.0 4.0] leaves in the bag. *)
Lemma get_radius_numeric_text_raises_witness :
  FluxEnergy.get_radius ({["radius" := VList [VStr "3.0"; VStr "4.0"]]} : bag)
    = Raise TypeError.
Proof.
  apply (get_radius_numeric_text_raises
           ({["radius" := VList [VStr "3.0"; VStr "4.0"]]} : bag)
           ["3.0"] "4.0" tagged_rejects_text);
    [reflexivity | discriminate | reflexivity].
Defined.

(** With the unit given last the magnitudes are converted, and the
    measurement is built. *)
Example get_radius_with_unit :
  FluxEnergy.get_radius
      ({["radius" := VList [VStr "1.0"; VStr "2.0"; VStr "au"]]} : bag)
    = Ok (Meas {| magnitudes := [dec 10 1; dec 20 1]; unit_of := "au" |}).
Proof. reflexivity. Qed.

Lemma build_paths_directory_inference_witness :
  @FluxEnergy.build_paths sample_fs (Some "/data") None
    = Ok (FluxEnergy.PathTuple [["data"; "run1"]; ["data"; "run2"]]) /\
  @FluxEnergy.build_paths sample_fs (Some "/mixed") None
    = Ok (FluxEnergy.PathTuple [["mixed"]]).
Proof.
  split.
  - apply (proj1 (@build_paths_directory_inference sample_fs "/data" _ eq_refl));
      [reflexivity | repeat constructor].
  - apply (proj2 (@build_paths_directory_inference sample_fs "/mixed" _ eq_refl)).
    right. left. reflexivity.
Defined.

Lemma build_paths_explicit_names_witness :
  @FluxEnergy.build_paths sample_fs None
      (Some (FluxEnergy.RunList ["run3"; "/old/run4"]))
    = Ok (FluxEnergy.PathTuple [["data"; "run3"]; ["old"; "run4"]]) /\
  @FluxEnergy.build_paths sample_fs (Some "/data")
      (Some (FluxEnergy.RunList ["run3"; "run4"]))
    = Ok (FluxEnergy.PathTuple [["data"; "run3"]; ["data"; "run4"]]) /\
  @FluxEnergy.build_paths sample_fs (Some "/data")
      (Some (FluxEnergy.RunList ["run*"]))
    = Ok (FluxEnergy.PathTuple [["data"; "run1"]; ["data"; "run2"]]).
Proof.
  split;
    [etrans; [apply (proj1 (@build_paths_explicit_names sample_fs _)) |];
     reflexivity |].
  split.
  - etrans;
      [apply (proj1 (proj2 (@build_paths_explicit_names sample_fs _)));
       simpl; lia
      | reflexivity].
  - etrans;
      [apply (proj2 (proj2 (proj2 (@build_paths_explicit_names sample_fs _)))
                "/data" "run*" eq_refl)
      | reflexivity].
Defined.

(** C7 as stated fails: under a base directory a single name is matched
    against the directory, so a name that matches nothing yields no path,
    and one with a wildcard yields every match. *)
Lemma build_paths_single_name_is_pattern :
  @FluxEnergy.build_paths sample_fs (Some "/data")
      (Some (FluxEnergy.RunList ["run3"]))
    = Ok (FluxEnergy.PathTuple []) /\
  @one_path_per_name sample_fs (Some "/data") ["run3"] = [["data"; "run3"]] /\
  @FluxEnergy.build_paths sample_fs (Some "/data")
      (Some (FluxEnergy.RunList ["run3"]))
    <> Ok (FluxEnergy.PathTuple (@one_path_per_name sample_fs (Some "/data") ["run3"])).
Proof. split; [reflexivity |]. split; [reflexivity | discriminate]. Qed.

Lemma survey_defaults_witness :
  StreamSurvey.plot_stream_suptitle proton_stream
      ({["shell" := VNone; "radius" := VNone]} : bag)
    = Ok "shell = 0 | species = H+" /\
  contains "shell = 0" "shell = 0 | species = H+" = true.
Proof.
  destruct (survey_defaults ({["shell" := VNone; "radius" := VNone]} : bag)
              proton_stream)
    as (_ & _ & Htitle & Hsub & _).
  - right; reflexivity.
  - right; reflexivity.
  - left; reflexivity.
  - split; [exact Htitle | exact (Hsub _ Htitle)].
Defined.

Lemma make_suptitle_errors_witness :
  StreamSurvey.make_suptitle proton_stream (Plain (VStr "0")) (Plain (VInt 0))
    = Raise TypeError /\
  StreamSurvey.make_suptitle proton_stream (Plain (VInt 0)) (Plain VNone)
    = Raise TypeError /\
  (exists title,
     StreamSurvey.make_suptitle proton_stream
       (Meas {| magnitudes := [dec 15 1]; unit_of := "au" |}) (Plain (VStr "He"))
     = Ok title) /\
  StreamSurvey.make_suptitle proton_stream
      (Meas {| magnitudes := [dec 10 1; dec 20 1]; unit_of := "au" |})
      (Plain (VInt 0))
    = Raise TypeError /\
  StreamSurvey.make_suptitle proton_stream (Plain (VInt 0)) (Plain (VInt 1))
    = Raise IndexError.
Proof.
  split; [apply (proj1 (make_suptitle_errors _ _ _)); reflexivity |].
  split; [apply (proj1 (proj2 (make_suptitle_errors _ _ _))); reflexivity |].
  split; [apply (proj1 (proj2 (proj2 (make_suptitle_errors _ _ _))));
          reflexivity |].
  split.
  - eapply (proj1 (proj2 (proj2 (proj2 (proj2 (make_suptitle_errors _ _ _))))));
      reflexivity.
  - eapply (proj1 (proj2 (proj2 (proj2 (proj2 (proj2
              (make_suptitle_errors _ _ _)))))));
      reflexivity.
Defined.

(** C9 as stated fails: an integer species beyond the stream's species is
    well-kinded, and [make_suptitle] raises [IndexError]. *)
Lemma make_suptitle_index_out_of_range :
  location_kind_ok (Plain (VInt 0)) = true /\
  species_kind_ok (Plain (VInt 5)) = true /\
  StreamSurvey.make_suptitle proton_stream (Plain (VInt 0)) (Plain (VInt 5))
    = Raise IndexError.
Proof. repeat split. Qed.

(** Program A on the sample file system, with its default time and with a
    measured time. *)
Example main_default_time :
  @FluxEnergy.main _ sample_fs (quiet_backend sample_fs)
     0 None (Some "/data") None None true (∅ : bag)
  = ([FluxEnergy.Mkdir ["data"]], Raise TypeError).
Proof. reflexivity. Qed.

Example main_time_in_hours :
  @FluxEnergy.main _ sample_fs (quiet_backend sample_fs)
     0 None (Some "/data") None None true
     ({["time" := VList [VStr "2.5"; VStr "hour"]]} : bag)
  = ([FluxEnergy.Mkdir ["data"];
      FluxEnergy.Print "Saved /data/stream0_flux-t2.5h.png";
      FluxEnergy.Savefig ["data"; "stream0_flux-t2.5h.png"];
      FluxEnergy.Close], Ok ()).
Proof. reflexivity. Qed.

End Evaluation.

(** * Further properties of the code *)

(** ** The normalisers of flux-energy.py, past the documented cases *)

Section NormalizerOutcomes.
Context `{Quantity}.
Implicit Types user : gmap string pyval.
Import FluxEnergy.

Lemma scalar_no_items v : is_scalar v = true -> py_items v = Raise TypeError.
Proof. by destruct v. Qed.

Lemma scalar_no_len v : is_scalar v = true -> py_len v = Raise TypeError.
Proof. by destruct v. Qed.

(** A value is [None], a scalar, or a sequence with its items. *)
Lemma pyval_kinds v :
  v = VNone \/ is_scalar v = true \/ exists l, py_items v = Ok l.
Proof.
  destruct v; eauto; right; right; by eexists.
Qed.

Lemma get_time_scalar user :
  is_scalar (dict_get user "time") = true -> get_time user = Raise TypeError.
Proof.
  intros Hs. unfold get_time.
  destruct (dict_get user "time"); try discriminate; reflexivity.
Qed.

(** [get_time] returns exactly when the entry is unset, or has one item
    [int] accepts, or two items of which [float] accepts the first. *)
Theorem get_time_returns_iff user :
  is_ok (get_time user) = true <->
  unset user "time" \/
  (exists x, py_items (dict_get user "time") = Ok [x] /\
             is_ok (py_int x) = true) \/
  (exists x u, py_items (dict_get user "time") = Ok [x; u] /\
               is_ok (py_float x) = true).
Proof.
  destruct (pyval_kinds (dict_get user "time")) as [Hn | [Hs | [l Hl]]].
  - rewrite (get_time_unset user) by by apply dict_get_unset.
    split; [intros _; left; by apply dict_get_unset | reflexivity].
  - rewrite (get_time_scalar _ Hs). split; [discriminate |].
    rewrite dict_get_unset, (scalar_no_items _ Hs).
    intros [Hn | [(x & Hx & _) | (x & u & Hx & _)]]; try discriminate.
    by rewrite Hn in Hs.
  - rewrite (get_time_items _ _ Hl). rewrite dict_get_unset, Hl.
    destruct (py_items_len _ _ Hl) as [Hnone _].
    destruct l as [|x [|u [|w l]]]; split;
      try discriminate;
      try (intros [Hn | [(y & [= ] & _) | (y & z & [= ] & _)]]; congruence).
    + intros Hok. right; left. exists x. split; [reflexivity |].
      by destruct (py_int x).
    + intros [Hn | [(y & [= <-] & Hy) | (y & z & [= ] & _)]]; [congruence |].
      by destruct (py_int x).
    + intros Hok. right; right. exists x, u. split; [reflexivity |].
      by destruct (py_float x).
    + intros [Hn | [(y & [= ] & _) | (y & z & [= <- <-] & Hy)]]; [congruence |].
      by destruct (py_float x).
Qed.

(** Whatever [get_time] returns is an integer or a pair whose first
    component is a float. *)
Lemma get_time_int_or_pair user v :
  get_time user = Ok v ->
  (exists n, v = VInt n) \/ (exists x u, v = VTuple [VFloat x; u]).
Proof.
  destruct (pyval_kinds (dict_get user "time")) as [Hn | [Hs | [l Hl]]].
  - rewrite (get_time_unset user) by by apply dict_get_unset.
    intros [= <-]. left. by eexists.
  - by rewrite (get_time_scalar _ Hs).
  - rewrite (get_time_items _ _ Hl).
    destruct l as [|x [|u [|w l]]]; try discriminate.
    + destruct (py_int x); [|discriminate]. intros [= <-]. left. by eexists.
    + destruct (py_float x); [|discriminate]. intros [= <-]. right.
      by do 2 eexists.
Qed.

(** What [get_time] returns has one of the two shapes [main] tells apart
    with [isinstance(time, int)]: an integer, or a pair of a float and a
    second item, whose positional reads [time[0]] and [time[1]] succeed. *)
Theorem get_time_shape user v :
  get_time user = Ok v ->
  (is_int v = true /\ exists n, v = VInt n) \/
  (is_int v = false /\
   exists x u, v = VTuple [VFloat x; u] /\
               py_getitem v 0 = Ok (VFloat x) /\ py_getitem v 1 = Ok u).
Proof.
  intros Hv. destruct (get_time_int_or_pair _ _ Hv) as [[n ->] | (x & u & ->)].
  - left. split; [reflexivity | by eexists].
  - right. split; [reflexivity |]. exists x, u. by repeat split.
Qed.

Lemma get_shell_scalar user :
  is_scalar (dict_get user "shell") = true -> get_shell user = Raise TypeError.
Proof.
  intros Hs. unfold get_shell.
  destruct (dict_get user "shell"); try discriminate; reflexivity.
Qed.

(** [get_shell] raises only [TypeError], and exactly on an entry without
    items: a bare integer, float or boolean. *)
Theorem get_shell_raises_iff user e :
  get_shell user = Raise e <->
  is_scalar (dict_get user "shell") = true /\ e = TypeError.
Proof.
  destruct (pyval_kinds (dict_get user "shell")) as [Hn | [Hs | [l Hl]]].
  - rewrite (get_shell_unset user) by by apply dict_get_unset.
    rewrite Hn. split; [discriminate | by intros [? _]].
  - rewrite (get_shell_scalar _ Hs). split; [by intros [= <-] | by intros [_ ->]].
  - rewrite (get_shell_items _ _ Hl). split; [discriminate |].
    intros [Hs _]. by rewrite (scalar_no_items _ Hs) in Hl.
Qed.

(** Normalising twice changes nothing: [get_shell] returns what it is given
    its own result for. *)
Theorem get_shell_idempotent user r :
  get_shell user = Ok r -> get_shell (<["shell" := r]> user) = Ok r.
Proof.
  destruct (pyval_kinds (dict_get user "shell")) as [Hn | [Hs | [l Hl]]].
  - rewrite (get_shell_unset user) by by apply dict_get_unset.
    intros [= <-]. apply get_shell_items. by rewrite dict_get_insert.
  - by rewrite (get_shell_scalar _ Hs).
  - rewrite (get_shell_items _ _ Hl). intros [= <-].
    apply get_shell_items. by rewrite dict_get_insert.
Qed.

(** An empty ['radius'] entry is not treated as absent: [radius[-1]]
    raises [IndexError]. *)
Theorem get_radius_empty user :
  py_items (dict_get user "radius") = Ok [] ->
  get_radius user = Raise IndexError.
Proof. intros Hl. by rewrite (get_radius_several _ _ Hl). Qed.

(** With several items only the last one is tested: when [float] accepts
    it, the whole entry goes to the constructor under ["au"], whatever the
    other items are. *)
Theorem get_radius_last_numeric user l z :
  py_items (dict_get user "radius") = Ok (l ++ [z])%list -> l <> [] ->
  is_ok (py_float z) = true ->
  get_radius user = (m ← measure [dict_get user "radius"; VStr "au"]; Ok (Meas m)).
Proof.
  intros Hl Hne Hz.
  rewrite (get_radius_several _ _ Hl)
    by (rewrite length_app; simpl; destruct l; simpl; [congruence | lia]).
  rewrite index_items_last. cbn [mbind result_bind]. by destruct (py_float z).
Qed.

Lemma mapR_first_error {A B} (f : A -> result B) l1 x l2 e :
  Forall (fun y => is_ok (f y) = true) l1 -> f x = Raise e ->
  mapR f (l1 ++ x :: l2) = Raise e.
Proof.
  intros Hall Hx. induction Hall as [|y l Hy _ IH]; simpl.
  - by rewrite Hx.
  - destruct (f y); [|discriminate]. cbn [mbind result_bind]. by rewrite IH.
Qed.

(** Errors of [get_radius] with several items. When the last item is a
    unit, the first magnitude [float] rejects raises its error and no
    measurement is built; when [float] rejects the last item with anything
    but [ValueError], that error is raised. *)
Theorem get_radius_errors user :
  (forall l1 x l2 unit e,
     py_items (dict_get user "radius") = Ok (l1 ++ x :: l2 ++ [unit])%list ->
     py_float unit = Raise ValueError ->
     Forall (fun y => is_ok (py_float y) = true) l1 ->
     py_float x = Raise e ->
     get_radius user = Raise e) /\
  (forall l z e,
     py_items (dict_get user "radius") = Ok (l ++ [z])%list -> l <> [] ->
     py_float z = Raise e -> e <> ValueError ->
     get_radius user = Raise e).
Proof.
  split.
  - intros l1 x l2 unit e Hl Hunit Hall Hx.
    rewrite app_comm_cons, app_assoc in Hl.
    rewrite (get_radius_several _ _ Hl)
      by (rewrite !length_app; simpl; lia).
    rewrite index_items_last, removelast_last. cbn [mbind result_bind].
    rewrite Hunit. cbn [try_except_ValueError].
    by rewrite (mapR_first_error _ _ _ _ _ Hall Hx).
  - intros l z e Hl Hne Hz He.
    rewrite (get_radius_several _ _ Hl)
      by (rewrite length_app; simpl; destruct l; simpl; [congruence | lia]).
    rewrite index_items_last. cbn [mbind result_bind]. rewrite Hz.
    by destruct e.
Qed.

(** [get_radius] returns plain data only for an unset entry, and then the
    empty tuple: a supplied radius comes back as a measurement or not at
    all. *)
Theorem get_radius_plain_only_unset user v :
  get_radius user = Ok (Plain v) -> unset user "radius" /\ v = VTuple [].
Proof.
  destruct (pyval_kinds (dict_get user "radius")) as [Hn | [Hs | [l Hl]]].
  - rewrite (get_radius_unset user) by by apply dict_get_unset.
    intros [= <-]. split; [by apply dict_get_unset | reflexivity].
  - unfold get_radius. rewrite (scalar_no_len _ Hs).
    by destruct (dict_get user "radius").
  - destruct (decide (length l = 1%nat)) as [H1 | H1].
    + destruct l as [|x [|]]; try discriminate H1.
      rewrite (get_radius_one _ _ Hl). by destruct (measure _).
    + rewrite (get_radius_several _ _ Hl H1). unfold try_except_ValueError.
      destruct (_ ≫= _) as [?|[]]; try discriminate;
        repeat match goal with
               | |- context [mbind _ ?r] => destruct r; cbn [mbind result_bind]
               end; discriminate.
Qed.

End NormalizerOutcomes.

(** ** Path resolution, past the documented cases *)

Section PathEdges.
Context `{PathLib}.
Import FluxEnergy.

(** [build_paths] returns a generator in one case only: no base directory
    and a selector that is a single string. *)
Theorem build_paths_generator_iff indir runs :
  (exists items, build_paths indir runs = Ok (PathGenerator items)) <->
  indir = None /\ exists s, runs = Some (RunStr s).
Proof.
  split.
  - intros [items Hb]. unfold build_paths in Hb.
    destruct indir as [d|], runs as [[s|l]|]; try discriminate.
    + destruct (Nat.eqb _ 1);
        repeat match type of Hb with
               | context [mbind _ ?r] => destruct r; cbn [mbind result_bind] in Hb
               end; discriminate.
    + destruct (Nat.eqb _ 1);
        repeat match type of Hb with
               | context [mbind _ ?r] => destruct r; cbn [mbind result_bind] in Hb
               end; discriminate.
    + destruct (glob _ "*"); cbn [mbind result_bind] in Hb; [|discriminate].
      by destruct (_ && _).
    + split; [reflexivity | by eexists].
  - intros [-> [s ->]]. by eexists.
Qed.

(** A base path that is not a directory is returned alone, whatever its
    listing holds: a base that does not exist is not rejected. *)
Theorem build_paths_base_not_directory (d : string) (children : list Path) :
  glob (fullpath d) "*" = Ok children -> is_dir (fullpath d) = false ->
  build_paths (Some d) None = Ok (PathTuple [fullpath d]).
Proof.
  intros Hg Hd. unfold build_paths. rewrite Hg, Hd. reflexivity.
Qed.

Lemma length_string_chars s : length (string_chars s) = String.length s.
Proof.
  unfold string_chars. rewrite length_map.
  induction s as [|c s IH]; simpl; [reflexivity | by rewrite IH].
Qed.

(** Under a base directory a selector given as one string is read character
    by character: unless it is one character long, each character is joined
    to the base as a name. *)
Theorem build_paths_string_under_base (d s : string) :
  String.length s <> 1%nat ->
  build_paths (Some d) (Some (RunStr s))
    = Ok (PathTuple (map (join_str (fullpath d)) (string_chars s))) /\
  length (map (join_str (fullpath d)) (string_chars s)) = String.length s.
Proof.
  intros Hne. split.
  - unfold build_paths. simpl runs_items. rewrite length_string_chars.
    by apply Nat.eqb_neq in Hne as ->.
  - by rewrite length_map, length_string_chars.
Qed.

End PathEdges.

(** ** The entry point of flux-energy.py, as a whole *)

Section EntryPointRuns.
Context `{Numbers} `{PathLib} `{!Backend}.
Implicit Types user : gmap string pyval.
Import FluxEnergy.

(** Every run of [main] either ends in an error with nothing saved, or
    normally with the full log: the time is a (float, unit) pair and at
    least one path was selected. *)
Lemma main_runs num config indir runs outdir verbose user :
  let r := main num config indir runs outdir verbose user in
  (saved r = [] /\ is_ok r.2 = false) \/
  (exists x u ps,
     get_time user = Ok (VTuple [VFloat x; u]) /\
     build_paths indir runs = Ok (PathTuple ps) /\ ps <> [] /\
     r = (full_log num outdir verbose x, Ok ())).
Proof.
  unfold main, step.
  destruct (build_paths indir runs) as [paths|] eqn:Hb; [|by left].
  destruct paths as [ps|]; cbn [len_paths]; [|by left].
  destruct (subplots _); [|by left].
  destruct (get_time user) as [time|] eqn:Ht; [|by left].
  destruct (get_time_int_or_pair _ _ Ht) as [[n ->] | (x & u & ->)].
  - cbn [is_int]. destruct (if 1 <? _ then _ else _); [|by left].
    destruct tight_layout; [|by left].
    unfold emit. destruct (mkdir _); by left.
  - cbn [is_int]. unfold py_getitem. cbn [py_items mbind result_bind].
    replace (index_items [VFloat x; u] 0) with (Ok (VFloat x)) by reflexivity.
    replace (index_items [VFloat x; u] 1) with (Ok u) by reflexivity.
    cbn [mbind result_bind].
    destruct (if 1 <? _ then _ else _) eqn:Hplot; [|by left].
    destruct tight_layout; [|by left].
    unfold emit. destruct (mkdir _); [|by left].
    destruct (savefig _).
    + right. exists x, u, ps. repeat split; try reflexivity.
      * intros ->. simpl in Hplot. discriminate.
      * by destruct verbose.
    + left. by destruct verbose.
Qed.

(** [main] never saves more than one image, and it returns normally only
    after saving exactly one, as the last effect but the closing of the
    figure: every error before [plt.savefig] returns leaves nothing
    saved. *)
Theorem main_returns_only_after_saving num config indir runs outdir verbose user :
  let r := main num config indir runs outdir verbose user in
  (length (saved r) <= 1)%nat /\
  (r.2 = Ok () ->
     exists p before, saved r = [p] /\ r.1 = (before ++ [Savefig p; Close])%list /\
                      saved (before, Ok ()) = []) /\
  (saved r = [] -> is_ok r.2 = false).
Proof.
  intros r.
  destruct (main_runs num config indir runs outdir verbose user)
    as [[Hs Ho] | (x & u & ps & _ & _ & _ & Hr)]; fold r in Hs, Ho || fold r in Hr.
  - rewrite Hs. split; [simpl; lia |].
    split; [intros Hok; by rewrite Hok in Ho | done].
  - rewrite Hr. split; [by destruct verbose; simpl; lia |].
    split; [intros _ | by destruct verbose].
    destruct verbose; cbn [full_log fst].
    + eexists _, [_; _]. by repeat split.
    + eexists _, [_]. by repeat split.
Qed.

(** What [main] saves. An image is saved only when the time is a (float,
    unit) pair and some path was selected; it then lies directly under
    [outdir], or under ['.'] when no [outdir] is given whatever the input
    directory, and is named [stream{num}_flux-t{x}h.png] after the float;
    the output directory was made first and the figure closed after. *)
Theorem main_saved_path num config indir runs outdir verbose user p :
  In p (saved (main num config indir runs outdir verbose user)) ->
  exists x u ps,
    get_time user = Ok (VTuple [VFloat x; u]) /\
    build_paths indir runs = Ok (PathTuple ps) /\ ps <> [] /\
    p = join_str (fullpath (or_dot outdir))
          ("stream" ++ str_of_Z num ++ "_flux-t" ++ float_str x ++ "h.png") /\
    main num config indir runs outdir verbose user
      = (full_log num outdir verbose x, Ok ()).
Proof.
  destruct (main_runs num config indir runs outdir verbose user)
    as [[Hs _] | (x & u & ps & Ht & Hb & Hne & Hr)].
  - cbv zeta in Hs. by rewrite Hs.
  - cbv zeta in Hr. rewrite Hr. intros Hin. exists x, u, ps.
    repeat split; try assumption.
    destruct verbose; simpl in Hin; by destruct Hin as [<- | []].
Qed.


(** A selector that is a single string, with no base directory, makes
    [build_paths] return a generator, and [main] stops at [len(paths)] with
    [TypeError] before any effect. An empty list of runs leaves no path to
    plot, and [main] ends in an error without any effect either. *)
Theorem main_unusable_selection num config outdir verbose user :
  (forall s, main num config None (Some (RunStr s)) outdir verbose user
             = ([], Raise TypeError)) /\
  (forall indir,
     let r := main num config indir (Some (RunList [])) outdir verbose user in
     r.1 = [] /\ is_ok r.2 = false).
Proof.
  split; [reflexivity |].
  intros indir. unfold main, step.
  assert (Hb : build_paths indir (Some (RunList [])) = Ok (PathTuple []))
    by by destruct indir.
  rewrite Hb. cbn [len_paths length].
  destruct (subplots _); [|done].
  destruct (get_time user) as [time|]; [|done].
  destruct (if is_int time then _ else _); [|done].
  done.
Qed.

End EntryPointRuns.

(** ** The survey's location, title and units *)

Section SurveyOutcomes.
Context `{Quantity}.
Implicit Types user : gmap string pyval.
Import StreamSurvey.

Lemma get_location_given_shell user :
  dict_get user "shell" <> VNone ->
  get_location user = Ok (Plain (dict_get user "shell")).
Proof.
  intros Hs. unfold get_location. by destruct (dict_get user "shell").
Qed.

(** A shell that is given wins: it is returned as it is, zero and values
    of the wrong kind included, and the radius is not looked at. *)
Theorem get_location_shell_first user :
  dict_get user "shell" <> VNone ->
  get_location user = Ok (Plain (dict_get user "shell")) /\
  forall r, get_location (<["radius" := r]> user) = get_location user.
Proof.
  intros Hs. split; [by apply get_location_given_shell |].
  intros r. rewrite (get_location_given_shell user Hs).
  assert (Hr : dict_get (<["radius" := r]> user) "shell" = dict_get user "shell")
    by by apply dict_get_insert_ne.
  rewrite <- Hr. apply get_location_given_shell. by rewrite Hr.
Qed.

Lemma index_items_nth {A} (l : list A) (i : nat) (x : A) :
  nth_error l i = Some x -> index_items l (Z.of_nat i) = Ok x.
Proof.
  intros Hx. assert (Hlt : (i < length l)%nat)
    by (apply nth_error_Some; congruence).
  assert (E1 : (Z.of_nat i <? 0) = false) by (apply Z.ltb_ge; lia).
  assert (E2 : (Z.of_nat (length l) <=? Z.of_nat i) = false)
    by (apply Z.leb_gt; lia).
  unfold index_items. cbv zeta. rewrite E1. cbv iota. rewrite E1, E2.
  cbn [orb]. by rewrite Nat2Z.id, Hx.
Qed.

Lemma items_truthy v x l : py_items v = Ok (x :: l) -> py_truthy v = true.
Proof.
  destruct v as [| | | |s|l'|l']; simpl; try discriminate.
  - destruct s; [discriminate | reflexivity].
  - by intros [= ->].
  - by intros [= ->].
Qed.

(** With no shell, a radius that is empty, zero or otherwise false counts
    as absent: the location is shell 0 and nothing is raised. *)
Theorem get_location_false_radius user :
  unset user "shell" -> py_truthy (dict_get user "radius") = false ->
  get_location user = Ok (Plain (VInt 0)).
Proof.
  intros Hs%dict_get_unset Hr. unfold get_location. by rewrite Hs, Hr.
Qed.

(** With no shell, a radius of one item always raises, and of a radius
    with two items or more only the first two are used. *)
Theorem get_location_radius_items user :
  unset user "shell" ->
  (forall x, py_items (dict_get user "radius") = Ok [x] ->
     get_location user = (_ ← py_float x; Raise IndexError) /\
     is_ok (get_location user) = false) /\
  (forall x u rest, py_items (dict_get user "radius") = Ok (x :: u :: rest) ->
     get_location user =
       (f ← py_float x; m ← measure [VFloat f; u];
        m' ← withunit m "au"; Ok (Meas m'))).
Proof.
  intros Hs%dict_get_unset. split.
  - intros x Hl.
    assert (Hg : get_location user = (_ ← py_float x; Raise IndexError)).
    { unfold get_location. rewrite Hs, (items_truthy _ _ _ Hl).
      unfold py_getitem. rewrite Hl. cbn [mbind result_bind].
      replace (index_items [x] 0) with (Ok x) by reflexivity.
      cbn [mbind result_bind]. by destruct (py_float x). }
    split; [exact Hg |]. rewrite Hg. by destruct (py_float x).
  - intros x u rest Hl.
    unfold get_location. rewrite Hs, (items_truthy _ _ _ Hl).
    unfold py_getitem. rewrite Hl. cbn [mbind result_bind].
    rewrite (index_items_nth (x :: u :: rest) 0 x eq_refl
             : index_items _ 0 = _).
    cbn [mbind result_bind]. destruct (py_float x); [|reflexivity].
    cbn [mbind result_bind].
    by rewrite (index_items_nth (x :: u :: rest) 1 u eq_refl
                : index_items _ 1 = _).
Qed.

(** With an integer shell and a species given as text, the title is
    written from the two as they are, whatever the stream and the radius:
    a species that reads as a number is not looked up. *)
Theorem suptitle_of_shell_and_symbol user stream n s :
  dict_get user "shell" = VInt n -> dict_get user "species" = VStr s ->
  plot_stream_suptitle stream user
    = Ok ("shell = " ++ str_of_Z n ++ " | species = " ++ s).
Proof.
  intros Hs Hp. unfold plot_stream_suptitle, get_location, get_species.
  rewrite Hs, Hp. reflexivity.
Qed.

(** A shell that is neither [None] nor an integer passes [get_location]
    and is rejected by [make_suptitle] with [TypeError]. *)
Theorem suptitle_rejects_shell_kind user stream :
  dict_get user "shell" <> VNone -> is_int (dict_get user "shell") = false ->
  get_location user = Ok (Plain (dict_get user "shell")) /\
  plot_stream_suptitle stream user = Raise TypeError.
Proof.
  intros Hn Hi.
  pose proof (get_location_given_shell user Hn) as Hg.
  split; [exact Hg |].
  unfold plot_stream_suptitle. rewrite Hg. cbn [mbind result_bind].
  destruct (get_species user) as [species|] eqn:Hsp.
  - cbn [mbind result_bind]. apply make_suptitle_bad_location. exact Hi.
  - unfold get_species in Hsp. by destruct (dict_get user "species").
Qed.

End SurveyOutcomes.

Section SurveyUnits.
Context `{Quantity} `{PathLib} `{!SurveyBackend}.
Implicit Types user : gmap string pyval.
Import SurveyProgram.

Lemma units_default_when_absent user :
  (forall q, In q (map fst UNITS) -> user !! q = None) ->
  units user = default_units.
Proof.
  intros Hnone. unfold units, default_units, dict_get_or.
  apply map_ext_in. intros [q u] Hin. simpl.
  rewrite (Hnone q); [reflexivity |]. by apply (in_map fst) in Hin.
Qed.

(** [units] always has the five quantities of [UNITS], in their order; a
    bag without these five keys gets the default units, whatever else it
    holds; and a quantity mapped to [None] gets [None], not its default. *)
Theorem units_of_bag user :
  map fst (units user) = map fst UNITS /\
  ((forall q, In q (map fst UNITS) -> user !! q = None) ->
     units user = default_units) /\
  (forall q, In q (map fst UNITS) -> user !! q = Some VNone ->
     In (q, VNone) (units user)).
Proof.
  split; [reflexivity |]. split; [apply units_default_when_absent |].
  intros q Hq Hv. unfold units. apply in_map_iff in Hq as ([q' u] & <- & Hin).
  apply in_map_iff. exists (q', u). split; [|exact Hin].
  unfold dict_get_or. simpl in *. by rewrite Hv.
Qed.

(** From the command line the units are always the defaults: [--time-unit]
    and [--energy-unit] are stored under [time_unit] and [energy_unit],
    which [units] does not read. *)
Theorem units_from_command_line (o : options) :
  units (user_of o) = default_units.
Proof.
  apply units_default_when_absent.
  intros q Hq. simpl in Hq.
  destruct Hq as [<- | [<- | [<- | [<- | [<- | []]]]]]; reflexivity.
Qed.

(** From the command line, without [--radius]: the title names the shell
    given, or shell 0, and the species text given; only when no species is
    given is the stream's first species looked up. *)
Theorem title_from_command_line (o : options) (stream : StreamSurvey.Stream) :
  opt_radius o = None ->
  StreamSurvey.plot_stream_suptitle stream (user_of o) =
    let strloc := "shell = " ++ str_of_Z (default 0 (opt_shell o)) in
    match opt_species o with
    | Some s => Ok (strloc ++ " | species = " ++ s)
    | None =>
        name ← index_items (StreamSurvey.species_data stream) 0;
        Ok (strloc ++ " | species = " ++ name)
    end.
Proof.
  intros Hr.
  unfold StreamSurvey.plot_stream_suptitle, StreamSurvey.get_location,
    StreamSurvey.get_species.
  replace (dict_get (user_of o) "shell") with (entry VInt (opt_shell o))
    by reflexivity.
  replace (dict_get (user_of o) "radius") with (entry pair_of_str (opt_radius o))
    by reflexivity.
  replace (dict_get (user_of o) "species") with (entry VStr (opt_species o))
    by reflexivity.
  rewrite Hr.
  destruct (opt_shell o) as [n|], (opt_species o) as [s|];
    try reflexivity;
    cbn [entry py_truthy mbind result_bind default];
    unfold StreamSurvey.make_suptitle;
    cbn [is_int py_int mbind result_bind];
    destruct (index_items _ 0); reflexivity.
Qed.

End SurveyUnits.

(** ** The entry point of stream-survey.py *)

Section SurveyRuns.
Context `{Quantity} `{PathLib} `{!SurveyBackend}.
Implicit Types user : gmap string pyval.
Import SurveyProgram.

Lemma saved_andthen (r k : run) :
  saved (andthen r k) = if is_ok r.2 then (saved r ++ saved k)%list else saved r.
Proof.
  unfold andthen, saved. destruct r as [log [[]|e]]; simpl; [|reflexivity].
  apply omap_app.
Qed.

Lemma outcome_andthen (r k : run) :
  (andthen r k).2 = match r.2 with Ok _ => k.2 | Raise e => Raise e end.
Proof. unfold andthen. by destruct r as [log [[]|e]]. Qed.

(** One turn of the loop saves nothing, or the one image named after its
    observer; it saves it whenever it ends normally. *)
Lemma plot_and_save_saved plotdir verbose user stream :
  let r := plot_and_save plotdir verbose user stream in
  (saved r = [] /\ is_ok r.2 = false) \/
  (exists name, png_name stream = Ok name /\
                is_ok (call_plot_stream stream user) = true /\
                saved r = [join_str plotdir name]).
Proof.
  unfold plot_and_save.
  destruct (call_plot_stream stream user) as [title|]; [|by left].
  destruct (png_name stream) as [name|]; [|by left].
  destruct (survey_savefig (join_str plotdir name)).
  - right. exists name. repeat split.
    destruct verbose, (py_truthy _), survey_show; reflexivity.
  - left. by destruct verbose.
Qed.

Lemma plot_and_save_ok plotdir verbose user stream name :
  is_ok (call_plot_stream stream user) = true -> png_name stream = Ok name ->
  survey_savefig (join_str plotdir name) = Ok () ->
  (py_truthy (dict_get user "show") = true -> survey_show = Ok ()) ->
  let r := plot_and_save plotdir verbose user stream in
  r.2 = Ok () /\ saved r = [join_str plotdir name].
Proof.
  intros Hp Hn Hs Hshow. unfold plot_and_save. rewrite Hn.
  destruct (call_plot_stream stream user); [|discriminate].
  destruct verbose, (py_truthy _); try rewrite (Hshow eq_refl);
    unfold andthen, saved, act; simpl; rewrite Hs; by split.
Qed.

Lemma plot_and_save_raises plotdir verbose user stream e :
  call_plot_stream stream user = Raise e ->
  plot_and_save plotdir verbose user stream = ([], Raise e).
Proof. intros Hp. unfold plot_and_save. by rewrite Hp. Qed.

Lemma for_each_all_ok plotdir verbose user streams names :
  Forall (fun s => is_ok (call_plot_stream s user) = true) streams ->
  mapR png_name streams = Ok names ->
  (forall p, survey_savefig p = Ok ()) ->
  (py_truthy (dict_get user "show") = true -> survey_show = Ok ()) ->
  let r := for_each streams (plot_and_save plotdir verbose user) in
  r.2 = Ok () /\ saved r = map (join_str plotdir) names.
Proof.
  intros Hall Hnames Hsave Hshow. revert names Hnames.
  induction Hall as [|s rest Hs _ IH]; intros names Hnames.
  - injection Hnames as <-. by split.
  - simpl in Hnames. destruct (png_name s) as [name|] eqn:Hn; [|discriminate].
    cbn [mbind result_bind] in Hnames.
    destruct (mapR png_name rest) as [names'|]; [|discriminate].
    injection Hnames as <-.
    destruct (IH names' eq_refl) as [IHo IHs].
    destruct (plot_and_save_ok plotdir verbose user s name Hs Hn (Hsave _) Hshow)
      as [Ho Hsv].
    cbn [for_each]. rewrite outcome_andthen, saved_andthen, Ho. cbn [is_ok].
    split; [exact IHo |]. by rewrite Hsv, IHs.
Qed.

(** When every library call succeeds and every call [plot_stream(stream,
    **user)] returns, which needs a bag without the key ['stream'], the
    survey saves one image per selected stream, in the order of the
    streams, each under the output directory and named after its observer,
    and returns normally. *)
Theorem survey_saves_each num indir config outdir verbose user
    dataset streams names :
  open_dataset (str_or indir ".") config = Ok dataset ->
  get_streams dataset num = Ok streams ->
  survey_mkdir (fullpath (str_or outdir (str_or indir "."))) = Ok () ->
  Forall (fun s => is_ok (call_plot_stream s user) = true) streams ->
  mapR png_name streams = Ok names ->
  (forall p, survey_savefig p = Ok ()) ->
  (py_truthy (dict_get user "show") = true -> survey_show = Ok ()) ->
  let r := main num indir config outdir verbose user in
  r.2 = Ok () /\
  saved r = map (join_str (fullpath (str_or outdir (str_or indir ".")))) names.
Proof.
  intros Hd Hg Hm Hall Hnames Hsave Hshow. unfold main.
  rewrite Hd, Hg, Hm.
  destruct (for_each_all_ok (fullpath (str_or outdir (str_or indir ".")))
              verbose user streams names Hall Hnames Hsave Hshow) as [Ho Hs].
  rewrite outcome_andthen, saved_andthen. cbn [act is_ok snd].
  split; [exact Ho | exact Hs].
Qed.

(** The survey stops at the first stream whose call [plot_stream(stream,
    **user)] fails, be it inside [plot_stream] or, for a bag that holds the
    key ['stream'], at the call itself: the error is raised, the images of
    the streams before it stay saved, and no later stream is plotted. *)
Theorem survey_fails_fast num indir config outdir verbose user
    dataset before stream after names e :
  open_dataset (str_or indir ".") config = Ok dataset ->
  get_streams dataset num = Ok (before ++ stream :: after)%list ->
  survey_mkdir (fullpath (str_or outdir (str_or indir "."))) = Ok () ->
  Forall (fun s => is_ok (call_plot_stream s user) = true) before ->
  mapR png_name before = Ok names ->
  (forall p, survey_savefig p = Ok ()) ->
  (py_truthy (dict_get user "show") = true -> survey_show = Ok ()) ->
  call_plot_stream stream user = Raise e ->
  let r := main num indir config outdir verbose user in
  r.2 = Raise e /\
  saved r = map (join_str (fullpath (str_or outdir (str_or indir ".")))) names.
Proof.
  intros Hd Hg Hm Hall Hnames Hsave Hshow He. unfold main.
  rewrite Hd, Hg, Hm. set (plotdir := fullpath _).
  rewrite outcome_andthen, saved_andthen. cbn [act is_ok snd].
  change (saved ([Mkdir plotdir], Ok ())) with (@nil Path). cbn [app].
  clear Hg Hd Hm. revert names Hnames.
  induction Hall as [|s rest Hs _ IH]; intros names Hnames.
  - injection Hnames as <-. cbn [app for_each].
    rewrite outcome_andthen, saved_andthen.
    by rewrite (plot_and_save_raises _ _ _ _ _ He).
  - simpl in Hnames. destruct (png_name s) as [name|] eqn:Hn; [|discriminate].
    cbn [mbind result_bind] in Hnames.
    destruct (mapR png_name rest) as [names'|]; [|discriminate].
    injection Hnames as <-.
    destruct (IH names' eq_refl) as [IHo IHs].
    destruct (plot_and_save_ok plotdir verbose user s name Hs Hn (Hsave _) Hshow)
      as [Ho Hsv].
    cbn [app for_each]. rewrite outcome_andthen, saved_andthen, Ho.
    cbn [is_ok]. split; [exact IHo |]. by rewrite Hsv, IHs.
Qed.

Lemma for_each_saved plotdir verbose user streams :
  let r := for_each streams (plot_and_save plotdir verbose user) in
  (length (saved r) <= length streams)%nat /\
  forall p, In p (saved r) ->
    exists s name, In s streams /\ png_name s = Ok name /\
                   p = join_str plotdir name.
Proof.
  induction streams as [|s rest [IHl IHin]]; [by split |].
  cbn [for_each]. cbv zeta. rewrite saved_andthen.
  destruct (plot_and_save_saved plotdir verbose user s)
    as [[Hs Ho] | (name & Hn & _ & Hs)]; cbv zeta in *.
  - rewrite Ho, Hs. split; [simpl; lia | by intros p []].
  - rewrite Hs. destruct (is_ok _).
    + split; [simpl; lia |].
      intros p [<- | Hin].
      * exists s, name. repeat split; [by left | exact Hn].
      * destruct (IHin p Hin) as (s' & name' & Hin' & Hn' & ->).
        exists s', name'. repeat split; [by right | exact Hn'].
    + split; [simpl; lia |].
      intros p [<- | []]. exists s, name. repeat split; [by left | exact Hn].
Qed.

(** Whatever happens, every image the survey saves lies directly under
    [outdir], or under the input directory when no [outdir] is given, and is
    named after an observer; with a stream number given, at most one image
    is saved. *)
Theorem survey_saved_paths num indir config outdir verbose user :
  let r := main num indir config outdir verbose user in
  (forall p, In p (saved r) ->
     exists s name, png_name s = Ok name /\
       p = join_str (fullpath (str_or outdir (str_or indir "."))) name) /\
  (forall n, num = Some n -> (length (saved r) <= 1)%nat).
Proof.
  unfold main.
  destruct (open_dataset _ config) as [dataset|]; [|by split; [intros p [] | simpl; lia]].
  destruct (get_streams dataset num) as [streams|] eqn:Hg;
    [|by split; [intros p [] | simpl; lia]].
  set (plotdir := fullpath _).
  destruct (for_each_saved plotdir verbose user streams) as [Hl Hin].
  cbv zeta in *. rewrite saved_andthen.
  destruct (survey_mkdir plotdir); cbn [act is_ok snd].
  - change (saved ([Mkdir plotdir], Ok ())) with (@nil Path). cbn [app].
    split.
    + intros p Hp. destruct (Hin p Hp) as (s & name & _ & Hn & ->). by exists s, name.
    + intros n ->. simpl in Hg.
      destruct (streams_getitem dataset n); [|discriminate].
      injection Hg as <-. exact Hl.
  - split; [intros p [] | intros; simpl; lia].
Qed.

End SurveyRuns.

(** ** The panels of flux-energy.py *)

Section PanelDrawing.
Context `{Quantity} `{PathLib} `{!PanelBackend}.
Implicit Types user : gmap string pyval.
Import FluxEnergyPanels.

Lemma prog_eta {E A} (p : prog E A) : Prog (drawn p) (outcome p) = p.
Proof. by destruct p. Qed.

Lemma bind_call_ok {E A B} (a : A) (k : A -> prog E B) :
  (call (Ok a) ≫= k) = k a.
Proof. unfold mbind, prog_bind. simpl. apply prog_eta. Qed.

Lemma bind_call_raise {E A B} (e : exn) (k : A -> prog E B) :
  (call (Raise e) ≫= k) = Prog [] (Raise e).
Proof. reflexivity. Qed.

Lemma drawn_bind {E A B} (r : prog E A) (k : A -> prog E B) :
  drawn (r ≫= k) =
    (drawn r ++ match outcome r with
                | Ok a => drawn (k a)
                | Raise _ => []
                end)%list.
Proof.
  unfold mbind, prog_bind. destruct (outcome r); simpl;
    [reflexivity | by rewrite app_nil_r].
Qed.

Lemma outcome_bind {E A B} (r : prog E A) (k : A -> prog E B) :
  outcome (r ≫= k) =
    match outcome r with
    | Ok a => outcome (k a)
    | Raise e => Raise e
    end.
Proof. unfold mbind, prog_bind. by destruct (outcome r). Qed.

(** A property of everything drawn passes through sequencing and loops. *)
Lemma Forall_drawn_bind {E A B} (P : E -> Prop) (r : prog E A)
    (k : A -> prog E B) :
  Forall P (drawn r) -> (forall a, Forall P (drawn (k a))) ->
  Forall P (drawn (r ≫= k)).
Proof.
  intros Hr Hk. rewrite drawn_bind. apply Forall_app. split; [exact Hr |].
  destruct (outcome r); [apply Hk | constructor].
Qed.

Lemma Forall_drawn_loop {E A} (P : E -> Prop) (l : list A)
    (body : A -> prog E unit) :
  (forall a, Forall P (drawn (body a))) -> Forall P (drawn (for_loop l body)).
Proof.
  intros Hb. induction l as [|a l IH]; [constructor |].
  cbn [for_loop]. by apply Forall_drawn_bind.
Qed.

Lemma Forall_drawn_call {E A} (P : E -> Prop) (r : result A) :
  Forall P (drawn (call (E := E) r)).
Proof. constructor. Qed.

(** A loop whose every turn draws one thing and returns. *)
Lemma for_loop_each {E A B} (l : list A) (vs : list B) (f : A -> result B)
    (mark : B -> E) (body : A -> prog E unit) :
  (forall a v, f a = Ok v -> body a = Prog [mark v] (Ok ())) ->
  mapR f l = Ok vs ->
  for_loop l body = Prog (map mark vs) (Ok ()).
Proof.
  intros Hb. revert vs. induction l as [|a l IH]; intros vs Hvs.
  - by injection Hvs as <-.
  - simpl in Hvs. destruct (f a) as [v|] eqn:Hv; [|discriminate].
    cbn [mbind result_bind] in Hvs.
    destruct (mapR f l) as [vs'|]; [|discriminate]. injection Hvs as <-.
    cbn [for_loop]. rewrite (Hb a v Hv), (IH vs' eq_refl). reflexivity.
Qed.

Lemma lines_app (l1 l2 : list artist) :
  lines (l1 ++ l2) = (lines l1 ++ lines l2)%list.
Proof. apply List.filter_app. Qed.

Lemma lines_Line fmt label ls mk (rest : list artist) :
  lines (Line fmt label ls mk :: rest) = Line fmt label ls mk :: lines rest.
Proof. reflexivity. Qed.

Lemma lines_other (a : artist) (rest : list artist) :
  match a with Line _ _ _ _ => False | _ => True end ->
  lines (a :: rest) = lines rest.
Proof. by destruct a. Qed.

Lemma lines_map_Line {B} (g : B -> artist) (vs : list B) :
  (forall v, lines [g v] = [g v]) -> lines (map g vs) = map g vs.
Proof.
  intros Hg. induction vs as [|v vs IH]; [reflexivity |].
  change (map g (v :: vs)) with ([g v] ++ map g vs)%list.
  by rewrite lines_app, Hg, IH.
Qed.

Lemma drawn_plot_line {B} x y fmt label ls mk (k : unit -> prog artist B) :
  drawn (plot_line x y fmt label ls mk ≫= k) =
    match ax_plot x y with
    | Ok _ => Line fmt label ls mk :: drawn (k ())
    | Raise _ => []
    end.
Proof.
  unfold plot_line. destruct (ax_plot x y) as [[]|]; [|reflexivity].
  by rewrite bind_call_ok.
Qed.

Lemma lines_set_limits user key set_lim mark :
  (forall args, lines [mark args] = []) ->
  lines (drawn (set_limits user key set_lim mark)) = [].
Proof.
  intros Hm. unfold set_limits. destruct (py_truthy _); [|reflexivity].
  destruct (py_items _) as [args|]; [|reflexivity].
  rewrite bind_call_ok. destruct (set_lim args) as [[]|]; [|reflexivity].
  rewrite bind_call_ok. apply Hm.
Qed.

(** The curves of a panel. When the stream's data can be read and drawn,
    [add_panel] draws the seed spectrum, then one line per radius, labelled
    with its value and unit, then one marker series per shell, labelled
    with the shell as given, in that order and nothing else as a line. *)
Theorem add_panel_lines stream user energy flux time x radii rs rlabels ss :
  stream_energy stream = Ok energy -> stream_flux stream = Ok flux ->
  FluxEnergy.get_time user = Ok time -> energy_all energy = Ok x ->
  (forall loc, is_ok (flux_at flux time loc) = true) ->
  (forall a b, ax_plot a b = Ok ()) ->
  FluxEnergy.get_radius user = Ok radii -> iterate radii = Ok rs ->
  mapR radius_label rs = Ok rlabels ->
  FluxEnergy.get_shell user = Ok (VTuple ss) ->
  lines (drawn (add_panel stream user)) =
    (Line (Some "k:") "Seed spectrum" None None ::
     map (fun label => Line None label None None) rlabels ++
     map (fun s => Line None ("shell = " ++ py_str s) (Some "none") (Some "o"))
         ss)%list.
Proof.
  intros He Hf Ht Hx Hy Hp Hr Hrs Hl Hs.
  assert (Hline : forall y fmt label ls mk (k : unit -> prog artist unit),
            (plot_line x y fmt label ls mk ≫= k)
            = Prog (Line fmt label ls mk :: drawn (k ())) (outcome (k ()))).
  { intros y fmt label ls mk k. unfold plot_line.
    by rewrite Hp, bind_call_ok. }
  assert (Hline' : forall loc fmt label ls mk,
            (y ← call (flux_at flux time loc);
             plot_line x y fmt label ls mk)
            = Prog [Line fmt label ls mk] (Ok ())).
  { intros loc fmt label ls mk. specialize (Hy loc).
    destruct (flux_at flux time loc) as [y|]; [|discriminate].
    rewrite bind_call_ok. unfold plot_line. by rewrite Hp, bind_call_ok. }
  unfold add_panel.
  rewrite He, bind_call_ok, Hf, bind_call_ok, Ht, bind_call_ok, Hx, bind_call_ok.
  pose proof (Hy (Plain (VInt 0))) as Hy0.
  destruct (flux_at flux time (Plain (VInt 0))) as [y0|]; [|discriminate].
  rewrite bind_call_ok, Hline. cbn [drawn]. rewrite lines_Line. f_equal.
  rewrite Hr, bind_call_ok, Hrs, bind_call_ok.
  rewrite (for_loop_each rs rlabels radius_label
             (fun label => Line None label None None)).
  2:{ intros r label Hlab. rewrite bind_call_ok.
      specialize (Hy r). destruct (flux_at flux time r) as [y|]; [|discriminate].
      rewrite bind_call_ok, Hlab, bind_call_ok. unfold plot_line.
      by rewrite Hp, bind_call_ok. }
  2: exact Hl.
  rewrite drawn_bind. cbn [drawn outcome]. rewrite lines_app.
  rewrite (lines_map_Line _ rlabels) by (intros; reflexivity). f_equal.
  rewrite drawn_bind. cbn [put drawn outcome app].
  rewrite lines_other by reflexivity.
  rewrite Hs, bind_call_ok. cbn [py_items]. rewrite bind_call_ok.
  rewrite (for_loop_each ss ss Ok
             (fun s => Line None ("shell = " ++ py_str s) (Some "none") (Some "o"))).
  2:{ intros s s' [= <-]. rewrite bind_call_ok. apply Hline'. }
  2:{ clear. induction ss as [|s ss IH]; [reflexivity |]. simpl. by rewrite IH. }
  rewrite drawn_bind. cbn [drawn outcome]. rewrite lines_app.
  rewrite (lines_map_Line _ ss) by (intros; reflexivity).
  rewrite <- (app_nil_r (map _ ss)) at 2. f_equal.
  rewrite drawn_bind. cbn [put drawn outcome app].
  rewrite lines_other by reflexivity.
  rewrite drawn_bind. cbn [put drawn outcome app].
  rewrite lines_other by reflexivity.
  rewrite drawn_bind, lines_app, lines_set_limits by reflexivity.
  destruct (outcome (set_limits user "xlim" _ _)); [|reflexivity].
  rewrite drawn_bind, lines_app, lines_set_limits by reflexivity.
  destruct (outcome (set_limits user "ylim" _ _)); reflexivity.
Qed.

(** Nothing is drawn before the time is resolved: when [get_time] raises,
    so does [add_panel], with an empty axis; and whatever is drawn starts
    with the seed spectrum. *)
Theorem add_panel_starts_with_seed stream user :
  (forall e, FluxEnergy.get_time user = Raise e ->
     drawn (add_panel stream user) = [] /\
     is_ok (outcome (add_panel stream user)) = false) /\
  match drawn (add_panel stream user) with
  | [] => True
  | first :: _ => first = Line (Some "k:") "Seed spectrum" None None
  end.
Proof.
  unfold add_panel. split.
  - intros e Ht.
    destruct (stream_energy stream); [rewrite bind_call_ok | by split].
    destruct (stream_flux stream); [rewrite bind_call_ok | by split].
    by rewrite Ht.
  - destruct (stream_energy stream); [rewrite bind_call_ok | exact I].
    destruct (stream_flux stream); [rewrite bind_call_ok | exact I].
    destruct (FluxEnergy.get_time user); [rewrite bind_call_ok | exact I].
    destruct (energy_all _) as [x|]; [rewrite bind_call_ok | exact I].
    destruct (flux_at _ _ _) as [y|]; [rewrite bind_call_ok | exact I].
    rewrite drawn_plot_line. by destruct (ax_plot x y).
Qed.

End PanelDrawing.

Section PanelFrames.
Context `{Quantity} `{PathLib} `{!PanelBackend}.
Implicit Types user : gmap string pyval.
Import FluxEnergyPanels.

Lemma Forall_drawn_put {E} (P : E -> Prop) (e : E) :
  P e -> Forall P (drawn (put e)).
Proof. intros He. by repeat constructor. Qed.

Lemma plot_line_artists x y fmt label ls mk :
  Forall panel_artist (drawn (plot_line x y fmt label ls mk)).
Proof.
  unfold plot_line. apply Forall_drawn_bind; [apply Forall_drawn_call |].
  intros _. by apply Forall_drawn_put.
Qed.

Lemma set_limits_artists user key set_lim mark :
  (forall args, panel_artist (mark args)) ->
  Forall panel_artist (drawn (set_limits user key set_lim mark)).
Proof.
  intros Hm. unfold set_limits. destruct (py_truthy _); [|constructor].
  repeat (apply Forall_drawn_bind; [apply Forall_drawn_call | intros]).
  by apply Forall_drawn_put.
Qed.

Lemma add_panel_artists stream user :
  Forall panel_artist (drawn (add_panel stream user)).
Proof.
  unfold add_panel.
  repeat first
    [ apply Forall_drawn_put; exact I
    | apply Forall_drawn_call
    | apply plot_line_artists
    | apply set_limits_artists; intros; exact I
    | apply Forall_drawn_loop; intros
    | apply Forall_drawn_bind; [| intros] ].
Qed.

Lemma call_add_panel_artists stream user :
  Forall panel_artist (drawn (call_add_panel stream user)).
Proof.
  unfold call_add_panel. destruct (_ || _); [constructor | apply add_panel_artists].
Qed.

Lemma call_add_panel_plain stream user :
  user !! "ax" = None -> user !! "stream" = None ->
  call_add_panel stream user = add_panel stream user.
Proof. unfold call_add_panel. by intros -> ->. Qed.

Lemma call_add_panel_collision stream user :
  is_Some (user !! "ax") \/ is_Some (user !! "stream") ->
  call_add_panel stream user = Prog [] (Raise TypeError).
Proof.
  unfold call_add_panel. intros [Hk | Hk].
  - by rewrite (bool_decide_eq_true_2 _ Hk).
  - rewrite (bool_decide_eq_true_2 _ Hk). by rewrite orb_true_r.
Qed.

Lemma titled_panel (panel : prog artist unit) title :
  (_ ← panel; _ ← put (Title title); put Legend)
  = match outcome panel with
    | Ok _ => Prog (drawn panel ++ [Title title; Legend]) (Ok ())
    | Raise e => Prog (drawn panel) (Raise e)
    end.
Proof. unfold mbind, prog_bind. by destruct (outcome panel) as [[]|]. Qed.

(** [plot_single] draws the panel of its stream and then, exactly when the
    panel is complete, titles the axis [Stream {num} ({timestr})] and adds
    the legend, in that order and as the last two things drawn. An error of
    [eprem.stream] or of the panel is raised with what was drawn so far and
    no title or legend. The panel is the call [add_panel(ax, stream,
    **user)], which is a [TypeError] with nothing drawn when the bag holds
    the key ['ax'] or ['stream']. *)
Theorem plot_single_title num config path timestr user :
  let r := plot_single num config path timestr user in
  (outcome r = Ok () <-> In Legend (drawn r)) /\
  (forall s, In (Title s) (drawn r) ->
     s = stream_title num timestr /\ outcome r = Ok ()) /\
  (forall e, open_stream num config path = Raise e -> r = Prog [] (Raise e)) /\
  (forall stream, open_stream num config path = Ok stream ->
     let panel := call_add_panel stream user in
     (outcome panel = Ok () ->
        r = Prog (drawn panel ++ [Title (stream_title num timestr); Legend])
                 (Ok ())) /\
     (forall e, outcome panel = Raise e -> r = Prog (drawn panel) (Raise e)) /\
     (user !! "ax" = None -> user !! "stream" = None ->
        panel = add_panel stream user) /\
     (is_Some (user !! "ax") \/ is_Some (user !! "stream") ->
        r = Prog [] (Raise TypeError))).
Proof.
  unfold plot_single.
  destruct (open_stream num config path) as [stream|e0].
  2:{ cbv zeta. split; [split; [discriminate | intros []] |].
      split; [intros s [] |]. split; [by intros e [= <-] | discriminate]. }
  rewrite bind_call_ok, titled_panel.
  pose proof (call_add_panel_artists stream user) as Hart.
  rewrite Forall_forall in Hart.
  assert (Hno : forall a, In a (drawn (call_add_panel stream user)) ->
                  panel_artist a)
    by (intros a Hin; apply Hart; by apply list_elem_of_In).
  cbv zeta. split; [| split; [| split; [discriminate |]]].
  - destruct (outcome (call_add_panel stream user)) as [[]|e]; cbn [drawn outcome].
    + split; [intros _ | reflexivity]. apply in_or_app. right. right. by left.
    + split; [discriminate |]. intros Hin. destruct (Hno _ Hin).
  - intros s.
    destruct (outcome (call_add_panel stream user)) as [[]|e]; cbn [drawn outcome].
    + intros [Hin | [[= <-] | [[=] | []]]]%in_app_or; [|by split].
      destruct (Hno _ Hin).
    + intros Hin. destruct (Hno _ Hin).
  - intros st [= <-]. split; [| split; [| split]].
    + by intros ->.
    + by intros e ->.
    + apply call_add_panel_plain.
    + intros Hk. by rewrite (call_add_panel_collision _ _ Hk).
Qed.

Lemma on_axis_panel_drawing {A} i (p : prog artist A) :
  Forall (fun a => a <> Legend) (drawn p) ->
  Forall panel_drawing (drawn (on_axis i p)).
Proof.
  intros Hp. unfold on_axis. cbn [drawn]. apply Forall_map.
  eapply Forall_impl; [exact Hp |]. by intros a Ha.
Qed.

(** In [plot_multiple] the only legend is on the first axis, and the figure
    title, [Stream {num} ({timestr})], is set only when every panel is
    complete and the call ends normally. *)
Theorem plot_multiple_legend_and_title naxes num config paths timestr user :
  let r := plot_multiple naxes num config paths timestr user in
  (forall i, In (OnAxis i Legend) (drawn r) -> i = 0%nat) /\
  (forall s, In (FigSuptitle s) (drawn r) ->
     s = stream_title num timestr /\ outcome r = Ok ()).
Proof.
  unfold plot_multiple.
  match goal with
  | |- context [for_loop ?l ?body] =>
      assert (Hloop : Forall panel_drawing (drawn (for_loop l body)));
      [| set (loop := for_loop l body) in *]
  end.
  { apply Forall_drawn_loop. intros [i path]. apply on_axis_panel_drawing.
    cbn [fst snd].
    apply Forall_drawn_bind; [apply Forall_drawn_call | intros stream].
    apply Forall_drawn_bind; [| intros _].
    { eapply Forall_impl; [apply call_add_panel_artists |].
      intros a Ha ->. exact Ha. }
    apply Forall_drawn_bind; [apply Forall_drawn_call | intros name].
    apply Forall_drawn_bind; [| intros _];
      apply Forall_drawn_put; discriminate. }
  rewrite Forall_forall in Hloop.
  cbv zeta. rewrite drawn_bind, outcome_bind.
  destruct (outcome loop) as [[]|e].
  - rewrite drawn_bind, outcome_bind.
    destruct (Nat.eqb naxes 0); cbn [call on_axis put drawn outcome map app].
    + rewrite app_nil_r. split.
      * intros i Hin. by destruct (Hloop _ (proj2 (list_elem_of_In _ _) Hin)).
      * intros s Hin. by destruct (Hloop _ (proj2 (list_elem_of_In _ _) Hin)).
    + split.
      * intros i [Hin | [[= <-] | [[=] | []]]]%in_app_or; [|reflexivity].
        by destruct (Hloop _ (proj2 (list_elem_of_In _ _) Hin)).
      * intros s [Hin | [[=] | [[= <-] | []]]]%in_app_or; [|by split].
        by destruct (Hloop _ (proj2 (list_elem_of_In _ _) Hin)).
  - rewrite app_nil_r. split.
    + intros i Hin. by destruct (Hloop _ (proj2 (list_elem_of_In _ _) Hin)).
    + intros s Hin. by destruct (Hloop _ (proj2 (list_elem_of_In _ _) Hin)).
Qed.

End PanelFrames.

(** ** flux-energy.py from its command line *)

Section FluxEnergyFromCommandLine.
Context `{Quantity}.
Import FluxEnergy FluxEnergyCommandLine.

Lemma py_float_text s e : py_float (VStr s) = Raise e -> e = ValueError.
Proof. simpl. destruct (float_of_str s); [discriminate | by intros [= <-]]. Qed.

Lemma py_int_text s e : py_int (VStr s) = Raise e -> e = ValueError.
Proof. simpl. destruct (int_of_str s); [discriminate | by intros [= <-]]. Qed.

Lemma mapR_float_text (l : list string) e :
  mapR py_float (map VStr l) = Raise e -> e = ValueError.
Proof.
  induction l as [|s l IH]; [discriminate |]. simpl.
  destruct (float_of_str s); cbn [mbind result_bind]; [|by intros [= <-]].
  destruct (mapR py_float (map VStr l)); [discriminate |].
  intros [= <-]. by apply IH.
Qed.

(** From the command line [get_time] either returns or raises
    [ValueError]: for a value that is not a number, or more than two
    values. *)
Theorem get_time_from_command_line (o : options) e :
  get_time (user_of o) = Raise e -> e = ValueError.
Proof.
  destruct (opt_time o) as [[t rest]|] eqn:Ho.
  - rewrite (get_time_items (user_of o) (map VStr (t :: rest))).
    2:{ replace (dict_get (user_of o) "time")
          with (SurveyProgram.entry (items VStr) (opt_time o)) by reflexivity.
        by rewrite Ho. }
    destruct rest as [|u [|w rest]]; simpl.
    + destruct (int_of_str t); [discriminate | by intros [= <-]].
    + destruct (float_of_str t); [discriminate | by intros [= <-]].
    + by intros [= <-].
  - rewrite (get_time_unset (user_of o)); [discriminate |].
    apply dict_get_unset.
    replace (dict_get (user_of o) "time")
      with (SurveyProgram.entry (items VStr) (opt_time o)) by reflexivity.
    by rewrite Ho.
Qed.

(** From the command line [get_shell] always returns, and what it returns
    is the tuple of the integers given: on these bags it is the coerced
    sequence of the specification. *)
Theorem get_shell_from_command_line (o : options) :
  get_shell (user_of o)
    = Ok (VTuple (match opt_shell o with
                  | Some p => map VInt (p.1 :: p.2)
                  | None => []
                  end)) /\
  get_shell (user_of o) = normalizeShell_spec (user_of o).
Proof.
  assert (Hd : dict_get (user_of o) "shell"
               = SurveyProgram.entry (items VInt) (opt_shell o)) by reflexivity.
  destruct (opt_shell o) as [[n ns]|] eqn:Ho; simpl in Hd.
  - assert (Hl : py_items (dict_get (user_of o) "shell") = Ok (map VInt (n :: ns)))
      by by rewrite Hd.
    split; [by apply get_shell_items |].
    rewrite (get_shell_items _ _ Hl). unfold normalizeShell_spec.
    rewrite Hd.
    change (Ok (VTuple (map VInt (n :: ns))) =
            (ints ← mapR py_int (map VInt (n :: ns)); Ok (VTuple (map VInt ints)))).
    by rewrite (mapR_all_int (n :: ns)).
  - assert (Hu : unset (user_of o) "shell") by by apply dict_get_unset.
    split; [by apply get_shell_unset |].
    rewrite (get_shell_unset _ Hu). unfold normalizeShell_spec. by rewrite Hd.
Qed.

(** From the command line the radius list is never empty and holds text
    only, so [get_radius] raises nothing of its own but the [ValueError] of
    a magnitude that is not a number; any other error is the measurement
    constructor's. *)
Theorem get_radius_from_command_line (o : options) e :
  get_radius (user_of o) = Raise e ->
  e = ValueError \/ exists args, measure args = Raise e.
Proof.
  assert (Hd : dict_get (user_of o) "radius"
               = SurveyProgram.entry (items VStr) (opt_radius o)) by reflexivity.
  destruct (opt_radius o) as [[r rest]|] eqn:Ho; simpl in Hd.
  - assert (Hl : py_items (dict_get (user_of o) "radius")
                 = Ok (map VStr (r :: rest))) by by rewrite Hd.
    destruct rest as [|r' rest].
    + rewrite (get_radius_one _ _ Hl).
      destruct (measure _) eqn:Hm; [discriminate |].
      intros [= <-]. right. by eexists.
    + rewrite (get_radius_several _ _ Hl) by (simpl; lia).
      destruct (exists_last (l := r :: r' :: rest)) as (l & z & Hz);
        [discriminate |].
      rewrite Hz, map_app. cbn [map]. rewrite index_items_last, removelast_last.
      cbn [mbind result_bind]. unfold try_except_ValueError.
      destruct (py_float (VStr z)) as [x|ez] eqn:Hf.
      * destruct (measure _) eqn:Hm; [discriminate |].
        intros [= <-]. right. by eexists.
      * apply py_float_text in Hf as ->.
        destruct (mapR py_float (map VStr l)) as [values|em] eqn:Hv.
        -- cbn [mbind result_bind]. destruct (measure _) eqn:Hm; [discriminate |].
           intros [= <-]. right. by eexists.
        -- intros [= <-]. left. by apply (mapR_float_text l).
  - rewrite (get_radius_unset (user_of o)); [discriminate |].
    by apply dict_get_unset.
Qed.

End FluxEnergyFromCommandLine.

(** * The further properties on the reference instances *)

Section FurtherEvaluation.
Import Reference ReferencePrograms.
#[local] Existing Instance sample_fs.

Abbreviation bag := (gmap string pyval).
Abbreviation dec m p := (VFloat {| mantissa := m; places := p |}).

Lemma get_time_shape_witness :
  FluxEnergy.get_time ({["time" := VList [VStr "2.5"; VStr "hour"]]} : bag)
    = Ok (VTuple [dec 25 1; VStr "hour"]) /\
  ((is_int (VTuple [dec 25 1; VStr "hour"]) = true /\
    exists n, VTuple [dec 25 1; VStr "hour"] = VInt n) \/
   (is_int (VTuple [dec 25 1; VStr "hour"]) = false /\
    exists x u, VTuple [dec 25 1; VStr "hour"] = VTuple [VFloat x; u] /\
                py_getitem (VTuple [dec 25 1; VStr "hour"]) 0 = Ok (VFloat x) /\
                py_getitem (VTuple [dec 25 1; VStr "hour"]) 1 = Ok u)).
Proof.
  split; [reflexivity |].
  exact (get_time_shape
           ({["time" := VList [VStr "2.5"; VStr "hour"]]} : bag) _ eq_refl).
Defined.

Lemma get_radius_empty_witness :
  FluxEnergy.get_radius ({["radius" := VList []]} : bag) = Raise IndexError.
Proof. exact (get_radius_empty ({["radius" := VList []]} : bag) eq_refl). Defined.

Lemma get_radius_last_numeric_witness :
  FluxEnergy.get_radius ({["radius" := VList [VStr "x"; VStr "2.0"]]} : bag)
    = Raise TypeError /\
  FluxEnergy.get_radius ({["radius" := VList [VInt 1; dec 25 1]]} : bag)
    = Ok (Meas {| magnitudes := [VInt 1; dec 25 1]; unit_of := "au" |}).
Proof.
  split.
  - etrans;
      [apply (get_radius_last_numeric
                ({["radius" := VList [VStr "x"; VStr "2.0"]]} : bag)
                [VStr "x"] (VStr "2.0"));
       [reflexivity | discriminate | reflexivity]
      | reflexivity].
  - etrans;
      [apply (get_radius_last_numeric
                ({["radius" := VList [VInt 1; @VFloat decimal_numbers
                                                {| mantissa := 25; places := 1 |}]]}
                 : bag)
                [VInt 1] (@VFloat decimal_numbers {| mantissa := 25; places := 1 |}));
       [reflexivity | discriminate | reflexivity]
      | reflexivity].
Defined.

Lemma get_radius_errors_witness :
  FluxEnergy.get_radius
      ({["radius" := VList [VStr "1.0"; VStr "x"; VStr "au"]]} : bag)
    = Raise ValueError /\
  FluxEnergy.get_radius ({["radius" := VList [VStr "1.0"; VNone]]} : bag)
    = Raise TypeError.
Proof.
  split.
  - apply (proj1 (get_radius_errors _) [VStr "1.0"] (VStr "x") [] (VStr "au"));
      [reflexivity | reflexivity | repeat constructor | reflexivity].
  - apply (proj2 (get_radius_errors _) [VStr "1.0"] VNone);
      [reflexivity | discriminate | reflexivity | discriminate].
Defined.

Lemma get_radius_plain_only_unset_witness :
  unset (∅ : bag) "radius" /\ VTuple [] = VTuple [].
Proof. exact (get_radius_plain_only_unset (∅ : bag) (VTuple []) eq_refl). Defined.

Lemma build_paths_base_not_directory_witness :
  @FluxEnergy.build_paths sample_fs (Some "/nowhere") None
    = Ok (FluxEnergy.PathTuple [["nowhere"]]).
Proof.
  exact (@build_paths_base_not_directory sample_fs "/nowhere" [] eq_refl eq_refl).
Defined.

Lemma build_paths_string_under_base_witness :
  @FluxEnergy.build_paths sample_fs (Some "/data") (Some (FluxEnergy.RunStr "run1"))
    = Ok (FluxEnergy.PathTuple
            [["data"; "r"]; ["data"; "u"]; ["data"; "n"]; ["data"; "1"]]).
Proof.
  etrans;
    [apply (proj1 (@build_paths_string_under_base sample_fs "/data" "run1"
                     ltac:(discriminate)))
    | reflexivity].
Defined.

Lemma main_saved_path_witness :
  exists x u ps,
    FluxEnergy.get_time ({["time" := VList [VStr "2.5"; VStr "hour"]]} : bag)
      = Ok (VTuple [VFloat x; u]) /\
    @FluxEnergy.build_paths sample_fs (Some "/data") None
      = Ok (FluxEnergy.PathTuple ps) /\ ps <> [] /\
    ["data"; "stream0_flux-t2.5h.png"]
      = join_str (fullpath (FluxEnergy.or_dot None))
          ("stream" ++ str_of_Z 0 ++ "_flux-t" ++ float_str x ++ "h.png") /\
    @FluxEnergy.main _ sample_fs (quiet_backend sample_fs)
       0 None (Some "/data") None None true
       ({["time" := VList [VStr "2.5"; VStr "hour"]]} : bag)
      = (full_log 0 None true x, Ok ()).
Proof.
  apply (@main_saved_path _ sample_fs (quiet_backend sample_fs)
           0 None (Some "/data") None None true
           ({["time" := VList [VStr "2.5"; VStr "hour"]]} : bag)
           ["data"; "stream0_flux-t2.5h.png"]).
  vm_compute. left. reflexivity.
Defined.

Lemma get_location_shell_first_witness :
  StreamSurvey.get_location
      ({["shell" := VInt 0; "radius" := VList [VStr "1.5"]]} : bag)
    = Ok (Plain (VInt 0)).
Proof.
  destruct (get_location_shell_first
              ({["shell" := VInt 0; "radius" := VList [VStr "1.5"]]} : bag))
    as [Hg _]; [discriminate | exact Hg].
Defined.

Lemma get_location_false_radius_witness :
  StreamSurvey.get_location ({["radius" := VList []]} : bag)
    = Ok (Plain (VInt 0)).
Proof.
  apply (get_location_false_radius ({["radius" := VList []]} : bag));
    [left; reflexivity | reflexivity].
Defined.

Lemma get_location_radius_items_witness :
  StreamSurvey.get_location ({["radius" := VList [VStr "1.5"]]} : bag)
    = Raise IndexError /\
  StreamSurvey.get_location
      ({["radius" := VList [VStr "1.5"; VStr "au"; VStr "extra"]]} : bag)
    = Ok (Meas {| magnitudes := [dec 15 1]; unit_of := "au" |}).
Proof.
  split.
  - etrans;
      [apply (proj1 (get_location_radius_items
                       ({["radius" := VList [VStr "1.5"]]} : bag)
                       ltac:(left; reflexivity)) (VStr "1.5") eq_refl)
      | reflexivity].
  - etrans;
      [apply (proj2 (get_location_radius_items
                       ({["radius" := VList [VStr "1.5"; VStr "au"; VStr "extra"]]}
                        : bag)
                       ltac:(left; reflexivity))
                (VStr "1.5") (VStr "au") [VStr "extra"] eq_refl)
      | reflexivity].
Defined.

Lemma suptitle_rejects_shell_kind_witness :
  StreamSurvey.plot_stream_suptitle proton_stream ({["shell" := VStr "3"]} : bag)
    = Raise TypeError.
Proof.
  destruct (suptitle_rejects_shell_kind ({["shell" := VStr "3"]} : bag)
              proton_stream) as [_ Ht]; [discriminate | reflexivity | exact Ht].
Defined.

Lemma title_from_command_line_witness :
  StreamSurvey.plot_stream_suptitle proton_stream
      (SurveyProgram.user_of shell3_species1)
    = Ok "shell = 3 | species = 1".
Proof.
  etrans; [apply (title_from_command_line shell3_species1 proton_stream eq_refl)
          | reflexivity].
Defined.

Lemma units_of_bag_witness :
  SurveyProgram.units ({["time_unit" := VStr "day"]} : bag) = default_units /\
  In ("time", VNone) (SurveyProgram.units ({["time" := VNone]} : bag)).
Proof.
  split.
  - apply (proj1 (proj2 (units_of_bag _))).
    intros q [<- | [<- | [<- | [<- | [<- | []]]]]]; reflexivity.
  - apply (proj2 (proj2 (units_of_bag _)) "time"); [by left | reflexivity].
Defined.

Lemma survey_saves_each_witness :
  let r := @SurveyProgram.main _ _ sample_fs sample_survey
             None (Some "/data") None None true (∅ : bag) in
  r.2 = Ok () /\
  SurveyProgram.saved r = [["data"; "obs000000.png"]; ["data"; "obs000001.png"]].
Proof.
  apply (@survey_saves_each _ _ sample_fs sample_survey
           None (Some "/data") None None true (∅ : bag)
           [(0, obs0); (1, obs1)] [obs0; obs1]
           ["obs000000.png"; "obs000001.png"]);
    try reflexivity; try (intros; reflexivity); repeat constructor.
Defined.

Lemma survey_fails_fast_witness :
  (let r := @SurveyProgram.main _ _ sample_fs broken_survey
              None (Some "/data") None (Some "/out") false (∅ : bag) in
   r.2 = Raise (LibraryError "KeyError") /\
   SurveyProgram.saved r = [["out"; "obs000000.png"]]) /\
  (let r := @SurveyProgram.main _ _ sample_fs sample_survey
              None (Some "/data") None (Some "/out") false
              ({["stream" := VInt 1]} : bag) in
   r.2 = Raise TypeError /\ SurveyProgram.saved r = []).
Proof.
  split.
  - apply (@survey_fails_fast _ _ sample_fs broken_survey
             None (Some "/data") None (Some "/out") false (∅ : bag)
             [(0, obs0); (1, obs2); (2, obs1)] [obs0] obs2 [obs1]
             ["obs000000.png"]);
      try reflexivity; try (intros; reflexivity); repeat constructor.
  - apply (@survey_fails_fast _ _ sample_fs sample_survey
             None (Some "/data") None (Some "/out") false
             ({["stream" := VInt 1]} : bag)
             [(0, obs0); (1, obs1)] [] obs0 [obs1] []);
      try reflexivity; try (intros; reflexivity); repeat constructor.
Defined.

Lemma add_panel_lines_witness :
  FluxEnergyPanels.lines
    (drawn (@FluxEnergyPanels.add_panel _ _ sample_fs blank_panels ()
              two_shells_one_radius))
  = [ FluxEnergyPanels.Line (Some "k:") "Seed spectrum" None None;
      FluxEnergyPanels.Line None "r = 1.0 au" None None;
      FluxEnergyPanels.Line None "shell = 0" (Some "none") (Some "o");
      FluxEnergyPanels.Line None "shell = 2" (Some "none") (Some "o") ].
Proof.
  apply (@add_panel_lines decimal_numbers tagged_quantity sample_fs
           blank_panels () two_shells_one_radius
           () ()
           (VTuple [@VFloat decimal_numbers {| mantissa := 25; places := 1 |};
                    VStr "hour"]) ()
           (@Meas decimal_numbers tagged_quantity one_au)
           [@Meas decimal_numbers tagged_quantity one_au]
           ["r = 1.0 au"] [VInt 0; VInt 2]);
    reflexivity.
Defined.

Lemma plot_single_title_witness :
  @FluxEnergyPanels.plot_single _ _ sample_fs blank_panels
      0 None ["data"; "run1"] "time = 2.5 hour" two_shells_one_radius
    = Prog (drawn (@FluxEnergyPanels.add_panel _ _ sample_fs blank_panels ()
                     two_shells_one_radius)
            ++ [FluxEnergyPanels.Title "Stream 0 (time = 2.5 hour)";
                FluxEnergyPanels.Legend]) (Ok ()) /\
  @FluxEnergyPanels.plot_single _ _ sample_fs blank_panels
      0 None ["data"; "run1"] "time = 2.5 hour"
      (<["stream" := VInt 3]> two_shells_one_radius)
    = Prog [] (Raise TypeError).
Proof.
  split.
  - destruct (proj2 (proj2 (proj2
      (@plot_single_title decimal_numbers tagged_quantity sample_fs
         blank_panels 0 None ["data"; "run1"] "time = 2.5 hour"
         two_shells_one_radius))) () eq_refl) as (Hdone & _ & _ & _).
    exact (Hdone eq_refl).
  - destruct (proj2 (proj2 (proj2
      (@plot_single_title decimal_numbers tagged_quantity sample_fs
         blank_panels 0 None ["data"; "run1"] "time = 2.5 hour"
         (<["stream" := VInt 3]> two_shells_one_radius)))) () eq_refl)
      as (_ & _ & _ & Hclash).
    apply Hclash. right. by eexists.
Defined.

Lemma get_time_from_command_line_witness :
  FluxEnergy.get_time (FluxEnergyCommandLine.user_of three_times)
    = Raise ValueError /\ ValueError = ValueError.
Proof.
  split; [reflexivity |].
  exact (get_time_from_command_line three_times ValueError eq_refl).
Defined.

Lemma get_radius_from_command_line_witness :
  FluxEnergy.get_radius (FluxEnergyCommandLine.user_of three_times)
    = Raise ValueError /\
  (ValueError = ValueError \/ exists args, measure args = Raise ValueError).
Proof.
  split; [reflexivity |].
  exact (get_radius_from_command_line three_times ValueError eq_refl).
Defined.

End FurtherEvaluation.
